(** * es-mon: a shallow embedding of [ecs_mon/ecs_mon.py]

    The program is sequential glue around four provider clients (sts, ecs,
    elbv2, route53).  Its Python functions are embedded as computations in
    a small monad that threads the terminal output and the log of provider
    requests, and that ends in a normal return, [sys.exit], an uncaught
    exception, or an exhausted loop budget.  The provider is a record of
    response functions, so every function below can be run on a concrete
    provider. *)

From Stdlib Require Import ZArith Ascii String List Lia Permutation Sorted.
From stdpp Require Import base option list strings pretty gmap.

Local Open Scope string_scope.
Local Open Scope list_scope.

(** ** Python string primitives used by the program *)

Module PyStr.

(** [s.split(sep, 1)] for a one-character separator: the text before and
    after the first occurrence of [sep], or [s] alone when there is none. *)
Fixpoint cut_first (sep : ascii) (s : string) : option (string * string) :=
  match s with
  | EmptyString => None
  | String c rest =>
      if Ascii.eqb c sep then Some (EmptyString, rest)
      else match cut_first sep rest with
           | Some (before, after) => Some (String c before, after)
           | None => None
           end
  end.

Definition split_max1 (sep : ascii) (s : string) : list string :=
  match cut_first sep s with
  | Some (before, after) => [before; after]
  | None => [s]
  end.

(** [l[-1]] on a list of strings; [split] never returns an empty list,
    so the default is never reached from the program. *)
Definition last_item (l : list string) : string := List.last l EmptyString.

(** The idiom [s.split(sep, 1)[-1]] that the program uses four times. *)
Definition split1_last (sep : ascii) (s : string) : string :=
  last_item (split_max1 sep s).

(** [s[:-1]]: all characters but the last; the empty string stays empty. *)
Fixpoint drop_last (s : string) : string :=
  match s with
  | EmptyString => EmptyString
  | String c EmptyString => EmptyString
  | String c rest => String c (drop_last rest)
  end.

(** [s.lower()] on ASCII text. *)
Definition lower_ascii (c : ascii) : ascii :=
  let n := N_of_ascii c in
  if ((65 <=? n) && (n <=? 90))%N then ascii_of_N (n + 32) else c.

Fixpoint lower (s : string) : string :=
  match s with
  | EmptyString => EmptyString
  | String c rest => String (lower_ascii c) (lower rest)
  end.

(** Truth value of a string, and of a value that is a string or [None]. *)
Definition nonempty (s : string) : bool :=
  match s with EmptyString => false | String _ _ => true end.

Definition truthy (o : option string) : bool :=
  match o with Some s => nonempty s | None => false end.

(** [list.sort()] on strings: code-point lexicographic order.  The order
    is total and antisymmetric, so the sorted list does not depend on
    the sorting algorithm; insertion sort is used here. *)
Fixpoint insert_sorted (x : string) (l : list string) : list string :=
  match l with
  | [] => [x]
  | y :: l' => if String.leb x y then x :: l else y :: insert_sorted x l'
  end.

Definition sort (l : list string) : list string :=
  fold_right insert_sorted [] l.

(** The reading "the text after the last separator", used to compare the
    program's idiom with that wording: the text after the last
    occurrence of [sep], or [s] itself when [sep] does not occur. *)
Fixpoint after_last (sep : ascii) (s : string) : string :=
  match s with
  | EmptyString => EmptyString
  | String c rest =>
      match cut_first sep rest with
      | Some _ => after_last sep rest
      | None => if Ascii.eqb c sep then rest else s
      end
  end.

End PyStr.

(** ** Exceptions, output and the request log *)

(** The exceptions the program can meet.  [ProviderError] stands for any
    error raised by a provider client (boto3's [ClientError] and the
    like); all four are subclasses of Python's [Exception]. *)
Inductive exn : Type :=
| IndexError
| KeyError (key : string)
| TypeError
| ProviderError (msg : string).

(** [str(error)], as printed by the handlers. *)
Definition str_exn (e : exn) : string :=
  match e with
  | IndexError => "list index out of range"
  | KeyError key => "'" +:+ key +:+ "'"
  | TypeError => "'NoneType' object is not subscriptable"
  | ProviderError msg => msg
  end.

(** One row of the task table: task id, task definition, status, image
    tag ([None] is Python's [None]). *)
Record task_row : Type := TaskRow {
  row_task_id : string;
  row_task_definition : string;
  row_status : string;
  row_image_tag : option string
}.

(** What reaches the terminal: a printed line, or the task table (its
    rendering by PrettyTable is outside the program). *)
Inductive out_item : Type :=
| Line (text : string)
| Table (rows : list task_row).

(** Requests made to the provider.  A paginated listing logs one request
    per page its iterator is asked for: [start] is the token the
    [paginate] call was given and [index] the position of the page within
    that call. *)
Inductive request : Type :=
| NewClient (service : string) (profile : option string)
| GetCallerIdentity
| ListTasks (cluster service : string)
| DescribeTaskDefinition (task_definition : string)
| DescribeTasks (cluster : string) (tasks : list string)
| DescribeServices (cluster : string) (services : list string)
| DescribeTargetGroups (arns : list string)
| DescribeLoadBalancers (arns : list string)
| ListServicesPage (cluster : string) (start : option string) (index : nat)
| ListRecordSetsPage (zone : string) (start : option string) (index : nat).

Record state : Type := State {
  stdout : list out_item;
  requests : list request
}.

Definition initial : state := State [] [].

(** How a computation ends: a value, [sys.exit(code)], an uncaught
    exception, or a [while] loop that outlived its budget. *)
Inductive result (A : Type) : Type :=
| Ret (a : A)
| Exit (code : Z)
| Raise (e : exn)
| Diverge.

Arguments Ret {A} a.
Arguments Exit {A} code.
Arguments Raise {A} e.
Arguments Diverge {A}.

Definition M (A : Type) : Type := state -> result A * state.

Definition ret {A} (a : A) : M A := fun s => (Ret a, s).

Definition bind {A B} (m : M A) (k : A -> M B) : M B :=
  fun s =>
    match m s with
    | (Ret a, s') => k a s'
    | (Exit code, s') => (Exit code, s')
    | (Raise e, s') => (Raise e, s')
    | (Diverge, s') => (Diverge, s')
    end.

Notation "'let*' x ':=' m 'in' k" := (bind m (fun x => k))
  (at level 10, x name, m at level 100, k at level 200).
Notation "'do*' m 'in' k" := (bind m (fun _ => k))
  (at level 10, m at level 100, k at level 200).

Definition print (text : string) : M unit :=
  fun s => (Ret tt, State (stdout s ++ [Line text]) (requests s)).

Definition print_table (rows : list task_row) : M unit :=
  fun s => (Ret tt, State (stdout s ++ [Table rows]) (requests s)).

Definition log (r : request) : M unit :=
  fun s => (Ret tt, State (stdout s) (requests s ++ [r])).

Definition sys_exit {A} (code : Z) : M A := fun s => (Exit code, s).

Definition raise {A} (e : exn) : M A := fun s => (Raise e, s).

Definition diverge {A} : M A := fun s => (Diverge, s).

(** [try: body except <class> as error: handler].  [sys.exit] raises
    [SystemExit], which is not an [Exception], so no handler of the
    program sees it. *)
Definition try_except {A} (body : M A) (caught : exn -> bool)
    (handler : exn -> M A) : M A :=
  fun s =>
    match body s with
    | (Raise e, s') => if caught e then handler e s' else (Raise e, s')
    | other => other
    end.

Definition any_exception (e : exn) : bool := true.

Definition is_index_error (e : exn) : bool :=
  match e with IndexError => true | _ => false end.

(** A provider answer: an error or a response. *)
Definition answer {A} (r : exn + A) : M A :=
  match r with
  | inl e => raise e
  | inr a => ret a
  end.

(** [l[0]] *)
Definition index0 {A} (l : list A) : M A :=
  match l with
  | [] => raise IndexError
  | x :: _ => ret x
  end.

(** [l[i]] for a non-negative [i] *)
Definition index_at {A} (l : list A) (i : nat) : M A :=
  match l !! i with
  | Some x => ret x
  | None => raise IndexError
  end.

(** [d[key]] for a key that the provider may leave out *)
Definition field {A} (key : string) (v : option A) : M A :=
  match v with
  | Some a => ret a
  | None => raise (KeyError key)
  end.

(** [for x in l: body], threading the loop's variables [acc]. *)
Fixpoint for_each {A St} (l : list A) (body : St -> A -> M St) (acc : St)
    : M St :=
  match l with
  | [] => ret acc
  | x :: l' => let* acc' := body acc x in for_each l' body acc'
  end.

(** ** The provider *)

(** Responses, with the fields the program reads.  A field the program
    tests with [in] before reading it, or that the provider may leave
    out, is an [option]. *)
Record container_definition : Type := ContainerDefinition {
  image : string
}.

Record task_description : Type := TaskDescription {
  taskDefinitionArn : string;
  lastStatus : string
}.

Record service_load_balancer : Type := ServiceLoadBalancer {
  targetGroupArn : option string
}.

Record service_description : Type := ServiceDescription {
  loadBalancers : list service_load_balancer
}.

Record target_group : Type := TargetGroup {
  LoadBalancerArns : list string;
  HealthCheckProtocol : string;
  HealthCheckPath : string
}.

Record load_balancer : Type := LoadBalancer {
  DNSName : string
}.

Record services_page : Type := ServicesPage {
  serviceArns : list string;
  nextToken : option string
}.

Record alias_target : Type := AliasTargetOf {
  alias_DNSName : string
}.

Record resource_record_set : Type := ResourceRecordSet {
  Name : string;
  Type_ : string;
  AliasTarget : option alias_target
}.

Record record_sets_page : Type := RecordSetsPage {
  ResourceRecordSets : list resource_record_set;
  NextRecordName : option string
}.

(** What the provider answers to each request.  A page iterator is the
    list of pages it yields, followed by an error if its last request
    fails; the argument of the two listings after the cluster or zone is
    the token handed to [paginate] ([None] on the first call). *)
Record Provider : Type := {
  session_client : string -> option string -> option exn;
  get_caller_identity : exn + string;
  list_tasks : string -> string -> exn + list string;
  describe_task_definition : string -> exn + list container_definition;
  describe_tasks : string -> list string -> exn + list task_description;
  describe_services : string -> list string -> exn + list service_description;
  describe_target_groups : list string -> exn + list target_group;
  describe_load_balancers : list string -> exn + list load_balancer;
  list_services_pages : string -> option string -> list services_page * option exn;
  list_record_sets_pages :
    string -> option string -> list record_sets_page * option exn
}.

(** Command-line options ([parse_args]) *)
Record Args : Type := {
  profile : option string;
  svc : option string;
  dns : option string;
  cluster : string;
  alb : bool
}.

(** The dictionary returned by [get_svc_alb_healthccheck_info] *)
Record alb_health : Type := AlbHealth {
  info_LoadBalancerArns : string;
  info_HealthCheckProtocol : string;
  info_HealthCheckPath : string;
  info_DNSName : string
}.

(** The dictionary returned by [get_dns_records_100x] *)
Record dns_page : Type := DnsPage {
  page_nextToken : option string;
  dnsMap : gmap string string
}.

Section Program.

Variable aws : Provider.

(** [for page in page_iterator]: one request per page, and the failing
    request when the iterator ends in an error. *)
Fixpoint for_pages {P St} (req : nat -> request) (index : nat)
    (pages : list P) (err : option exn) (body : St -> P -> M St) (acc : St)
    : M St :=
  match pages with
  | [] =>
      match err with
      | Some e => do* log (req index) in raise e
      | None => ret acc
      end
  | page :: rest =>
      do* log (req index) in
      let* acc' := body acc page in
      for_pages req (S index) rest err body acc'
  end.

Definition get_aws_client (aws_svc_name : string)
    (profile_name : option string) : M unit :=
  do* log (NewClient aws_svc_name profile_name) in
  match session_client aws aws_svc_name profile_name with
  | Some e => raise e
  | None => ret tt
  end.

Definition get_svc_tasks_list (cluster_n svc_n : string)
    (profile_name : option string) : M (list string) :=
  do* get_aws_client "ecs" profile_name in
  do* log (ListTasks cluster_n svc_n) in
  let* taskArns := answer (list_tasks aws cluster_n svc_n) in
  for_each taskArns
    (fun tasks_list i => ret (tasks_list ++ [PyStr.split1_last "/" i])) [].

Definition get_tsk_def_img_tag (tsk : string) (profile_name : option string)
    : M (option string) :=
  do* get_aws_client "ecs" profile_name in
  do* log (DescribeTaskDefinition tsk) in
  let* containerDefinitions := answer (describe_task_definition aws tsk) in
  for_each containerDefinitions
    (fun _ i => ret (Some (PyStr.split1_last ":" (image i)))) None.

(** The body of [display_svc_tsk]'s loop; its variables are the rows of
    [tsk_table] and [index]. *)
Definition add_task_row (task_list : list string)
    (profile_name : option string) (vars : list task_row * nat)
    (i : task_description) : M (list task_row * nat) :=
  let* img_tag := get_tsk_def_img_tag (taskDefinitionArn i) profile_name in
  let* task_id := index_at task_list (snd vars) in
  ret (fst vars ++ [TaskRow task_id
                      (PyStr.split1_last "/" (taskDefinitionArn i))
                      (lastStatus i) img_tag],
       S (snd vars)).

Definition display_svc_tsk (task_list : list string) (cluster : string)
    (profile_name : option string) : M unit :=
  do* get_aws_client "ecs" profile_name in
  do* log (DescribeTasks cluster task_list) in
  let* tasks := answer (describe_tasks aws cluster task_list) in
  let* vars := for_each tasks (add_task_row task_list profile_name) ([], O) in
  print_table (fst vars).

Definition get_svc_alb_tg_arn (cluster_n svc_n : string)
    (profile_name : option string) : M string :=
  do* get_aws_client "ecs" profile_name in
  do* log (DescribeServices cluster_n [svc_n]) in
  let* services := answer (describe_services aws cluster_n [svc_n]) in
  match services with
  | [] =>
      do* print ("Cannot find ECS service: " +:+ svc_n) in
      sys_exit 1%Z
  | _ :: _ =>
      try_except
        (let* service := index0 services in
         let* lb := index0 (loadBalancers service) in
         field "targetGroupArn" (targetGroupArn lb))
        is_index_error
        (fun error =>
           do* print "This service does not connect to a load balancer." in
           do* print (str_exn error) in
           sys_exit 1%Z)
  end.

Definition get_svc_alb_healthccheck_info (tg_arn : string)
    (profile_name : option string) : M alb_health :=
  do* get_aws_client "elbv2" profile_name in
  do* log (DescribeTargetGroups [tg_arn]) in
  let* TargetGroups := answer (describe_target_groups aws [tg_arn]) in
  let* tg := index0 TargetGroups in
  let* lb_arn := index0 (LoadBalancerArns tg) in
  do* log (DescribeLoadBalancers [lb_arn]) in
  let* LoadBalancers := answer (describe_load_balancers aws [lb_arn]) in
  let* lb := index0 LoadBalancers in
  ret (AlbHealth lb_arn (HealthCheckProtocol tg) (HealthCheckPath tg)
         (DNSName lb)).

(** The bodies of [list_svc]'s two [for] loops; the loop variables are
    [svc_list] and [NextToken]. *)
Definition first_pass_body (vars : list string * option string)
    (page : services_page) : list string * option string :=
  (* line 112 assigns, it does not extend; line 116 writes to a fresh
     name [NextTone], so a page without ['nextToken'] leaves
     [NextToken] as it was *)
  (serviceArns page,
   match nextToken page with
   | Some token => Some token
   | None => snd vars
   end).

Definition next_pass_body (vars : list string * option string)
    (page : services_page) : list string * option string :=
  (fst vars ++ serviceArns page, nextToken page).

(** [while NextToken:] with a budget of [fuel] iterations *)
Fixpoint list_svc_while (fuel : nat) (cluster_n : string)
    (vars : list string * option string)
    : M (list string * option string) :=
  if PyStr.truthy (snd vars) then
    match fuel with
    | O => diverge
    | S fuel' =>
        let page_iterator := list_services_pages aws cluster_n (snd vars) in
        let* vars' :=
          for_pages (ListServicesPage cluster_n (snd vars)) O
            (fst page_iterator) (snd page_iterator)
            (fun vars page => ret (next_pass_body vars page)) vars in
        list_svc_while fuel' cluster_n vars'
    end
  else ret vars.

Definition list_svc (fuel : nat) (cluster_n : string)
    (profile_name : option string) : M unit :=
  do* get_aws_client "ecs" profile_name in
  try_except
    (let page_iterator := list_services_pages aws cluster_n None in
     let* vars :=
       for_pages (ListServicesPage cluster_n None) O
         (fst page_iterator) (snd page_iterator)
         (fun vars page => ret (first_pass_body vars page)) ([], None) in
     let* vars := list_svc_while fuel cluster_n vars in
     let svc_list := PyStr.sort (fst vars) in
     for_each svc_list
       (fun _ svc => print (PyStr.split1_last "/" svc)) tt)
    any_exception
    (fun error =>
       do* print "Cannot find ECS services from the provided ECS cluster" in
       print (str_exn error)).

(** The loops of [get_dns_records_100x]: alias ["A"] records enter
    the map, keyed by the alias target, both names without their last
    character. *)
Definition add_record (dnsMap : gmap string string)
    (record : resource_record_set) : gmap string string :=
  if String.eqb (Type_ record) "A" then
    match AliasTarget record with
    | Some target =>
        <[PyStr.drop_last (alias_DNSName target) :=
            PyStr.drop_last (Name record)]> dnsMap
    | None => dnsMap
    end
  else dnsMap.

Definition record_set_body (vars : option string * gmap string string)
    (record_set : record_sets_page) : option string * gmap string string :=
  (NextRecordName record_set,
   fold_left add_record (ResourceRecordSets record_set) (snd vars)).

Definition get_dns_records_100x (zone_id : string)
    (next_token : option string) (profile_name : option string)
    : M dns_page :=
  do* get_aws_client "route53" profile_name in
  try_except
    (let source_zone_records :=
       list_record_sets_pages aws zone_id next_token in
     let* vars :=
       for_pages (ListRecordSetsPage zone_id next_token) O
         (fst source_zone_records) (snd source_zone_records)
         (fun vars record_set => ret (record_set_body vars record_set))
         (None, ∅) in
     ret (DnsPage (fst vars) (snd vars)))
    any_exception
    (fun error =>
       do* print "An error occurred getting source zone records:" in
       do* print (str_exn error) in
       raise error).

Definition get_aws_account_id (profile_name : option string) : M unit :=
  do* get_aws_client "sts" profile_name in
  do* log GetCallerIdentity in
  let* account_id := answer (get_caller_identity aws) in
  print ("account_id: " +:+ account_id).

(** [alb_info[...]]: subscripting [None] raises [TypeError]. *)
Definition subscript (alb_info : option alb_health) : M alb_health :=
  match alb_info with
  | Some info => ret info
  | None => raise TypeError
  end.

Definition r53_url (info : alb_health) (record_name : string) : string :=
  "R53 URL: " +:+ PyStr.lower (info_HealthCheckProtocol info) +:+ "://"
    +:+ record_name +:+ info_HealthCheckPath info.

(** [while more['nextToken']:] of [main], with a budget of [fuel]
    iterations; [break] ends the loop. *)
Fixpoint dns_while (fuel : nat) (zone : string)
    (profile_name : option string) (alb_info : option alb_health)
    (more : dns_page) : M unit :=
  if PyStr.truthy (page_nextToken more) then
    match fuel with
    | O => diverge
    | S fuel' =>
        let* info := subscript alb_info in
        match dnsMap more !! info_DNSName info with
        | Some record_name => print (r53_url info record_name)
        | None =>
            let* more' :=
              get_dns_records_100x zone (page_nextToken more) profile_name in
            dns_while fuel' zone profile_name alb_info more'
        end
    end
  else ret tt.

Definition service_url (info : alb_health) : string :=
  "service url: " +:+ PyStr.lower (info_HealthCheckProtocol info) +:+ "://"
    +:+ info_DNSName info +:+ info_HealthCheckPath info.

(** [main], lines 204-210: the profile is the [--profile] option or else
    the environment's [AWS_PROFILE]. *)
Definition resolve_profile (args : Args) (environ : gmap string string)
    : M (option string) :=
  if PyStr.truthy (profile args) then ret (profile args)
  else
    match environ !! "AWS_PROFILE" with
    | Some name => do* print ("aws profile: " +:+ name) in ret (Some name)
    | None =>
        do* print "Please provide an AWS profile or set AWS_PROFILE env" in
        sys_exit 1%Z
    end.

(** [main], lines 202-228: the report.  It leaves the two variables
    the rest of [main] reads: [args.profile] and [alb_info]. *)
Definition main_report (fuel : nat) (args : Args)
    (environ : gmap string string) : M (option string * option alb_health) :=
  let* profile_name := resolve_profile args environ in
  do* get_aws_account_id profile_name in
  do* print ("cluster name: " +:+ cluster args) in
  let* alb_info :=
    if PyStr.truthy (svc args) then
      let svc_n := default "" (svc args) in
      do* print ("service name: " +:+ svc_n) in
      let* alb_info :=
        if alb args then
          let* svc_tg_arn :=
            get_svc_alb_tg_arn (cluster args) svc_n profile_name in
          let* info :=
            get_svc_alb_healthccheck_info svc_tg_arn profile_name in
          do* print (service_url info) in
          ret (Some info)
        else ret None in
      let* tasks := get_svc_tasks_list (cluster args) svc_n profile_name in
      do* display_svc_tsk tasks (cluster args) profile_name in
      ret alb_info
    else
      do* list_svc fuel (cluster args) profile_name in
      ret None in
  ret (profile_name, alb_info).

(** [main], lines 230-252: the DNS correlation. *)
Definition main_dns (fuel : nat) (args : Args)
    (profile_name : option string) (alb_info : option alb_health) : M unit :=
  if PyStr.truthy (dns args) && PyStr.truthy (svc args) then
    let zone := default "" (dns args) in
    let* more := get_dns_records_100x zone None profile_name in
    do* match page_nextToken more with
        | None =>
            let* info := subscript alb_info in
            match dnsMap more !! info_DNSName info with
            | Some record_name => print (r53_url info record_name)
            | None => ret tt
            end
        | Some _ => ret tt
        end in
    dns_while fuel zone profile_name alb_info more
  else ret tt.

Definition main (fuel : nat) (args : Args) (environ : gmap string string)
    : M unit :=
  let* vars := main_report fuel args environ in
  main_dns fuel args (fst vars) (snd vars).

End Program.

(** ** Concrete providers *)

Module Scenario.

(** A provider that answers every request with an empty response. *)
Definition empty_provider : Provider := {|
  session_client := fun _ _ => None;
  get_caller_identity := inr "123456789012";
  list_tasks := fun _ _ => inr [];
  describe_task_definition := fun _ => inr [];
  describe_tasks := fun _ _ => inr [];
  describe_services := fun _ _ => inr [];
  describe_target_groups := fun _ => inr [];
  describe_load_balancers := fun _ => inr [];
  list_services_pages := fun _ _ => ([], None);
  list_record_sets_pages := fun _ _ => ([], None)
|}.

(** Cluster "prod", service "web" behind a load balancer whose target
    group checks [HTTP] on [/healthz]; the zone has one page with one
    alias record for the load balancer. *)
Definition web : Provider := {|
  session_client := fun _ _ => None;
  get_caller_identity := inr "123456789012";
  list_tasks := fun _ _ =>
    inr ["arn:aws:ecs:eu-west-1:123456789012:task/a1b2"];
  describe_task_definition := fun _ =>
    inr [ContainerDefinition "repo:v1"; ContainerDefinition "repo:v2"];
  describe_tasks := fun _ _ =>
    inr [TaskDescription
           "arn:aws:ecs:eu-west-1:123456789012:task-definition/web:7"
           "RUNNING"];
  describe_services := fun _ _ =>
    inr [ServiceDescription [ServiceLoadBalancer (Some "tg-arn")]];
  describe_target_groups := fun _ =>
    inr [TargetGroup ["lb-arn"] "HTTP" "/healthz"];
  describe_load_balancers := fun _ =>
    inr [LoadBalancer "lb-123.example.com"];
  list_services_pages := fun _ _ => ([], None);
  list_record_sets_pages := fun _ _ =>
    ([RecordSetsPage
        [ResourceRecordSet "app.example.com." "A"
           (Some (AliasTargetOf "lb-123.example.com."))]
        None], None)
|}.

Definition web_args : Args := {|
  profile := Some "dev";
  svc := Some "web";
  dns := Some "Z123";
  cluster := "prod";
  alb := true
|}.

(** A cluster whose first [paginate] call yields two pages: a short
    first page that carries the cursor ["t1"], then the last page. *)
Definition page_web : services_page :=
  ServicesPage ["arn:aws:ecs:eu-west-1:123456789012:service/web"] (Some "t1").

Definition page_api : services_page :=
  ServicesPage ["arn:aws:ecs:eu-west-1:123456789012:service/api"] None.

Definition short_first_page : Provider := {|
  session_client := fun _ _ => None;
  get_caller_identity := inr "123456789012";
  list_tasks := fun _ _ => inr [];
  describe_task_definition := fun _ => inr [];
  describe_tasks := fun _ _ => inr [];
  describe_services := fun _ _ => inr [];
  describe_target_groups := fun _ => inr [];
  describe_load_balancers := fun _ => inr [];
  list_services_pages := fun _ start =>
    match start with
    | None => ([page_web; page_api], None)
    | Some _ => ([page_api], None)
    end;
  list_record_sets_pages := fun _ _ => ([], None)
|}.

(** The provider of [web] with a zone of two pages: a full first page of
    100 records (99 address records and an alias for another target)
    that carries a cursor, and the alias record of the load balancer on
    the second, last page. *)
Definition zone_page_1 : record_sets_page :=
  RecordSetsPage
    (map (fun i : nat =>
            ResourceRecordSet ("host" +:+ pretty i +:+ ".example.com.") "A" None)
       (seq 0 99)
     ++ [ResourceRecordSet "my-record.example.com." "A"
           (Some (AliasTargetOf "x.example.com."))])
    (Some "n.example.com.").

Definition zone_page_2 : record_sets_page :=
  RecordSetsPage
    [ResourceRecordSet "app.example.com." "A"
       (Some (AliasTargetOf "lb-123.example.com."))]
    None.

Definition two_page_zone : Provider := {|
  session_client := session_client web;
  get_caller_identity := get_caller_identity web;
  list_tasks := list_tasks web;
  describe_task_definition := describe_task_definition web;
  describe_tasks := describe_tasks web;
  describe_services := describe_services web;
  describe_target_groups := describe_target_groups web;
  describe_load_balancers := describe_load_balancers web;
  list_services_pages := list_services_pages web;
  list_record_sets_pages := fun _ start =>
    match start with
    | None => ([zone_page_1], None)
    | Some _ => ([zone_page_2], None)
    end
|}.

(** A cluster that does not exist: the first page request fails. *)
Definition no_cluster : Provider := {|
  session_client := fun _ _ => None;
  get_caller_identity := inr "123456789012";
  list_tasks := fun _ _ => inr [];
  describe_task_definition := fun _ => inr [];
  describe_tasks := fun _ _ => inr [];
  describe_services := fun _ _ => inr [];
  describe_target_groups := fun _ => inr [];
  describe_load_balancers := fun _ => inr [];
  list_services_pages := fun _ _ =>
    ([], Some (ProviderError "ClusterNotFoundException"));
  list_record_sets_pages := fun _ _ => ([], None)
|}.

Definition list_args : Args := {|
  profile := Some "dev";
  svc := None;
  dns := None;
  cluster := "prod";
  alb := false
|}.

(** The provider of [web], but the service has no load balancer. *)
Definition no_load_balancer : Provider := {|
  session_client := session_client web;
  get_caller_identity := get_caller_identity web;
  list_tasks := list_tasks web;
  describe_task_definition := describe_task_definition web;
  describe_tasks := describe_tasks web;
  describe_services := fun _ _ => inr [ServiceDescription []];
  describe_target_groups := describe_target_groups web;
  describe_load_balancers := describe_load_balancers web;
  list_services_pages := list_services_pages web;
  list_record_sets_pages := list_record_sets_pages web
|}.

(** A task definition whose image comes from a registry with a port. *)
Definition registry_port : Provider := {|
  session_client := fun _ _ => None;
  get_caller_identity := inr "123456789012";
  list_tasks := fun _ _ => inr [];
  describe_task_definition := fun _ =>
    inr [ContainerDefinition "localhost:5000/app:v2"];
  describe_tasks := fun _ _ => inr [];
  describe_services := fun _ _ => inr [];
  describe_target_groups := fun _ => inr [];
  describe_load_balancers := fun _ => inr [];
  list_services_pages := fun _ _ => ([], None);
  list_record_sets_pages := fun _ _ => ([], None)
|}.

(** A task whose identifier names its cluster, as the provider's long
    identifiers do. *)
Definition long_task_arn : Provider := {|
  session_client := fun _ _ => None;
  get_caller_identity := inr "123456789012";
  list_tasks := fun _ _ =>
    inr ["arn:aws:ecs:eu-west-1:123456789012:task/prod/0123abcd"];
  describe_task_definition := fun _ => inr [ContainerDefinition "repo:v1"];
  describe_tasks := fun _ _ =>
    inr [TaskDescription
           "arn:aws:ecs:eu-west-1:123456789012:task-definition/web:7"
           "RUNNING"];
  describe_services := fun _ _ => inr [];
  describe_target_groups := fun _ => inr [];
  describe_load_balancers := fun _ => inr [];
  list_services_pages := fun _ _ => ([], None);
  list_record_sets_pages := fun _ _ => ([], None)
|}.

(** The provider of [web] with a second name for the load balancer:
    two alias records share one alias target. *)
Definition shared_target : Provider := {|
  session_client := session_client web;
  get_caller_identity := get_caller_identity web;
  list_tasks := list_tasks web;
  describe_task_definition := describe_task_definition web;
  describe_tasks := describe_tasks web;
  describe_services := describe_services web;
  describe_target_groups := describe_target_groups web;
  describe_load_balancers := describe_load_balancers web;
  list_services_pages := list_services_pages web;
  list_record_sets_pages := fun _ _ =>
    ([RecordSetsPage
        [ResourceRecordSet "app.example.com." "A"
           (Some (AliasTargetOf "lb-123.example.com."));
         ResourceRecordSet "www.example.com." "A"
           (Some (AliasTargetOf "lb-123.example.com."))]
        None], None)
|}.

Definition no_alb_args : Args := {|
  profile := Some "dev";
  svc := Some "web";
  dns := Some "Z123";
  cluster := "prod";
  alb := false
|}.

(** A cluster of two pages served one per [paginate] call. *)
Definition one_page_calls : Provider := {|
  session_client := fun _ _ => None;
  get_caller_identity := inr "123456789012";
  list_tasks := fun _ _ => inr [];
  describe_task_definition := fun _ => inr [];
  describe_tasks := fun _ _ => inr [];
  describe_services := fun _ _ => inr [];
  describe_target_groups := fun _ => inr [];
  describe_load_balancers := fun _ => inr [];
  list_services_pages := fun _ start =>
    match start with
    | None => ([page_web], None)
    | Some _ => ([page_api], None)
    end;
  list_record_sets_pages := fun _ _ => ([], None)
|}.

(** A provider whose credentials are refused for every client. *)
Definition no_credentials : Provider := {|
  session_client := fun _ _ => Some (ProviderError "ProfileNotFound");
  get_caller_identity := inr "123456789012";
  list_tasks := fun _ _ => inr [];
  describe_task_definition := fun _ => inr [];
  describe_tasks := fun _ _ => inr [];
  describe_services := fun _ _ => inr [];
  describe_target_groups := fun _ => inr [];
  describe_load_balancers := fun _ => inr [];
  list_services_pages := fun _ _ => ([], None);
  list_record_sets_pages := fun _ _ => ([], None)
|}.

(** The provider of [web] with a zone whose listing is refused. *)
Definition zone_denied : Provider := {|
  session_client := session_client web;
  get_caller_identity := get_caller_identity web;
  list_tasks := list_tasks web;
  describe_task_definition := describe_task_definition web;
  describe_tasks := describe_tasks web;
  describe_services := describe_services web;
  describe_target_groups := describe_target_groups web;
  describe_load_balancers := describe_load_balancers web;
  list_services_pages := list_services_pages web;
  list_record_sets_pages := fun _ _ => ([], Some (ProviderError "AccessDenied"))
|}.

(** The provider of [web] describing two tasks although one was listed,
    and the same with a task definition that cannot be described. *)
Definition two_tasks_described : Provider := {|
  session_client := session_client web;
  get_caller_identity := get_caller_identity web;
  list_tasks := list_tasks web;
  describe_task_definition := describe_task_definition web;
  describe_tasks := fun _ _ =>
    inr [TaskDescription
           "arn:aws:ecs:eu-west-1:123456789012:task-definition/web:7"
           "RUNNING";
         TaskDescription
           "arn:aws:ecs:eu-west-1:123456789012:task-definition/web:6"
           "STOPPED"];
  describe_services := describe_services web;
  describe_target_groups := describe_target_groups web;
  describe_load_balancers := describe_load_balancers web;
  list_services_pages := list_services_pages web;
  list_record_sets_pages := list_record_sets_pages web
|}.

Definition definition_gone : Provider := {|
  session_client := session_client web;
  get_caller_identity := get_caller_identity web;
  list_tasks := list_tasks web;
  describe_task_definition := fun _ =>
    inl (ProviderError "ClientException");
  describe_tasks := describe_tasks web;
  describe_services := describe_services web;
  describe_target_groups := describe_target_groups web;
  describe_load_balancers := describe_load_balancers web;
  list_services_pages := list_services_pages web;
  list_record_sets_pages := list_record_sets_pages web
|}.

(** The provider of [web] with a target group that has no load balancer,
    and with a service attached to a load balancer without target
    group. *)
Definition target_group_alone : Provider := {|
  session_client := session_client web;
  get_caller_identity := get_caller_identity web;
  list_tasks := list_tasks web;
  describe_task_definition := describe_task_definition web;
  describe_tasks := describe_tasks web;
  describe_services := describe_services web;
  describe_target_groups := fun _ => inr [TargetGroup [] "HTTP" "/healthz"];
  describe_load_balancers := describe_load_balancers web;
  list_services_pages := list_services_pages web;
  list_record_sets_pages := list_record_sets_pages web
|}.

Definition classic_balancer : Provider := {|
  session_client := session_client web;
  get_caller_identity := get_caller_identity web;
  list_tasks := list_tasks web;
  describe_task_definition := describe_task_definition web;
  describe_tasks := describe_tasks web;
  describe_services := fun _ _ =>
    inr [ServiceDescription [ServiceLoadBalancer None]];
  describe_target_groups := describe_target_groups web;
  describe_load_balancers := describe_load_balancers web;
  list_services_pages := list_services_pages web;
  list_record_sets_pages := list_record_sets_pages web
|}.

(** The provider of [web] when the caller's identity cannot be found. *)
Definition identity_denied : Provider := {|
  session_client := session_client web;
  get_caller_identity := inl (ProviderError "ExpiredToken");
  list_tasks := list_tasks web;
  describe_task_definition := describe_task_definition web;
  describe_tasks := describe_tasks web;
  describe_services := describe_services web;
  describe_target_groups := describe_target_groups web;
  describe_load_balancers := describe_load_balancers web;
  list_services_pages := list_services_pages web;
  list_record_sets_pages := list_record_sets_pages web
|}.

(** A task definition whose image carries no tag. *)
Definition untagged_image : Provider := {|
  session_client := fun _ _ => None;
  get_caller_identity := inr "123456789012";
  list_tasks := fun _ _ => inr [];
  describe_task_definition := fun _ => inr [ContainerDefinition "nginx"];
  describe_tasks := fun _ _ => inr [];
  describe_services := fun _ _ => inr [];
  describe_target_groups := fun _ => inr [];
  describe_load_balancers := fun _ => inr [];
  list_services_pages := fun _ _ => ([], None);
  list_record_sets_pages := fun _ _ => ([], None)
|}.

Definition dns_only_args : Args := {|
  profile := Some "dev";
  svc := None;
  dns := Some "Z123";
  cluster := "prod";
  alb := true
|}.

Definition tasks_only_args : Args := {|
  profile := Some "dev";
  svc := Some "web";
  dns := None;
  cluster := "prod";
  alb := false
|}.

End Scenario.


(** ** Vocabulary of the statements *)

(** The text after the first occurrence of [sep], or all of [s] when
    [sep] does not occur in it. *)
Definition after_first (sep : ascii) (s : string) : string :=
  match PyStr.cut_first sep s with
  | Some (_, after) => after
  | None => s
  end.

(** [sep] does not occur in [s]. *)
Fixpoint free_of (sep : ascii) (s : string) : bool :=
  match s with
  | EmptyString => true
  | String c rest => negb (Ascii.eqb c sep) && free_of sep rest
  end.

(** What [get_tsk_def_img_tag] computes from the container definitions:
    the text after the first colon of the last one's image (the whole
    reference when it has no colon), [None] when there is none.  It is
    the image's tag only when the reference has no other colon. *)
Definition image_suffix (containerDefinitions : list container_definition)
    : option string :=
  match last containerDefinitions with
  | Some definition => Some (after_first ":" (image definition))
  | None => None
  end.

(** The service is missing from the cluster, or it is there without any
    load balancer. *)
Definition no_target (services : list service_description) : bool :=
  match services with
  | [] => true
  | service :: _ =>
      match loadBalancers service with
      | [] => true
      | _ :: _ => false
      end
  end.

(** What [get_svc_alb_tg_arn] prints in each of the two cases; the second
    line of the second case is [str] of the [IndexError]. *)
Definition no_target_diagnostic (svc_n : string)
    (services : list service_description) : list out_item :=
  match services with
  | [] => [Line ("Cannot find ECS service: " +:+ svc_n)]
  | _ :: _ =>
      [Line "This service does not connect to a load balancer.";
       Line "list index out of range"]
  end.

(** Requests that belong to the DNS lookup. *)
Definition dns_request (r : request) : bool :=
  match r with
  | NewClient service _ => String.eqb service "route53"
  | ListRecordSetsPage _ _ _ => true
  | _ => false
  end.

(** What [get_dns_records_100x] returns for the pages of one [paginate]
    call: the map of all their records, and the cursor of the last
    page. *)
Definition zone_map (records : list resource_record_set) : gmap string string :=
  fold_left add_record records ∅.

Definition last_cursor (pages : list record_sets_page) : option string :=
  match last pages with
  | Some page => NextRecordName page
  | None => None
  end.

(** The key a record is filed under, if it enters the map. *)
Definition alias_key (record : resource_record_set) : option string :=
  if String.eqb (Type_ record) "A" then
    match AliasTarget record with
    | Some target => Some (PyStr.drop_last (alias_DNSName target))
    | None => None
    end
  else None.

(** The order of [list.sort()] on strings. *)
Definition string_le (a b : string) : Prop := String.leb a b = true.

(** The provider hands out [pages] one per [paginate] call: the call
    with the cursor [start] yields the first page alone, every page but
    the last carries the cursor of the call that yields the next, and
    the last page carries none. *)
Fixpoint one_page_per_call (aws : Provider) (cluster_n : string)
    (start : option string) (pages : list services_page) : Prop :=
  match pages with
  | [] => False
  | page :: rest =>
      list_services_pages aws cluster_n start = ([page], None) /\
      match rest with
      | [] => nextToken page = None
      | _ :: _ =>
          PyStr.truthy (nextToken page) = true /\
          one_page_per_call aws cluster_n (nextToken page) rest
      end
  end.

(** One request per page, each with the cursor of the page before. *)
Fixpoint page_requests (cluster_n : string) (start : option string)
    (pages : list services_page) : list request :=
  match pages with
  | [] => []
  | page :: rest =>
      ListServicesPage cluster_n start 0
        :: page_requests cluster_n (nextToken page) rest
  end.

(** [s'] has the output and the requests of [s], and possibly more after
    them. *)
Definition extends (s s' : state) : Prop :=
  exists o r, stdout s' = stdout s ++ o /\ requests s' = requests s ++ r.

(** [m] only appends to the output and to the request log. *)
Definition monotone {A} (m : M A) : Prop :=
  forall s, extends s (snd (m s)).

(** The rows [display_svc_tsk] builds: the task identifiers it was given,
    paired by position with the described tasks; [definitions] is what
    the provider answers for each task definition.  The second column is
    the text after the first ["/"] of the task definition's identifier,
    the fourth is [image_suffix] of its definition: the text after the
    first colon of its last container's image. *)
Definition task_rows (task_list : list string) (tasks : list task_description)
    (definitions : string -> list container_definition) : list task_row :=
  zip_with
    (fun task_id task =>
       TaskRow task_id (after_first "/" (taskDefinitionArn task))
         (lastStatus task) (image_suffix (definitions (taskDefinitionArn task))))
    task_list tasks.

(** The target group response names no load balancer: it is empty, or
    its first group has none. *)
Definition no_balancer (TargetGroups : list target_group) : bool :=
  match TargetGroups with
  | [] => true
  | tg :: _ =>
      match LoadBalancerArns tg with
      | [] => true
      | _ :: _ => false
      end
  end.

(** Requests that belong to the load-balancer lookup. *)
Definition elb_request (r : request) : bool :=
  match r with
  | NewClient service _ => String.eqb service "elbv2"
  | DescribeTargetGroups _ => true
  | DescribeLoadBalancers _ => true
  | _ => false
  end.

(** [m] adds only requests that [ok] accepts. *)
Definition requests_only (ok : request -> bool) {A} (m : M A) : Prop :=
  forall s,
    forallb ok (requests s) = true -> forallb ok (requests (snd (m s))) = true.

(** The zone is served one page per [paginate] call, as
    [one_page_per_call] says of a cluster. *)
Fixpoint zone_page_per_call (aws : Provider) (zone : string)
    (start : option string) (pages : list record_sets_page) : Prop :=
  match pages with
  | [] => False
  | page :: rest =>
      list_record_sets_pages aws zone start = ([page], None) /\
      match rest with
      | [] => NextRecordName page = None
      | _ :: _ =>
          PyStr.truthy (NextRecordName page) = true /\
          zone_page_per_call aws zone (NextRecordName page) rest
      end
  end.

(** The requests of fetching [pages] one by one: a client and a page
    request each, with the cursor of the page before. *)
Fixpoint zone_requests (profile_name : option string) (zone : string)
    (start : option string) (pages : list record_sets_page) : list request :=
  match pages with
  | [] => []
  | page :: rest =>
      NewClient "route53" profile_name
        :: ListRecordSetsPage zone start 0
        :: zone_requests profile_name zone (NextRecordName page) rest
  end.

(** The pages whose map the DNS correlation of [main] looks at: a sole
    page, or else every page but the last. *)
Definition searched_pages (pages : list record_sets_page)
    : list record_sets_page :=
  match pages with
  | [page] => [page]
  | _ => removelast pages
  end.

(** The page's map has no entry for the load balancer's DNS name. *)
Definition misses (info : alb_health) (page : record_sets_page) : Prop :=
  zone_map (ResourceRecordSets page) !! info_DNSName info = None.

(** [s] has exactly one [sep]. *)
Definition one_separator (sep : ascii) (s : string) : Prop :=
  exists before after,
    s = before +:+ String sep after /\
    free_of sep before = true /\ free_of sep after = true.

(** The provider service a request goes to. *)
Definition request_service (r : request) : string :=
  match r with
  | NewClient service _ => service
  | GetCallerIdentity => "sts"
  | ListTasks _ _ => "ecs"
  | DescribeTaskDefinition _ => "ecs"
  | DescribeTasks _ _ => "ecs"
  | DescribeServices _ _ => "ecs"
  | ListServicesPage _ _ _ => "ecs"
  | DescribeTargetGroups _ => "elbv2"
  | DescribeLoadBalancers _ => "elbv2"
  | ListRecordSetsPage _ _ _ => "route53"
  end.

(** [m] makes no request to [service]. *)
Definition avoids (service : string) {A} (m : M A) : Prop :=
  requests_only (fun r => negb (String.eqb (request_service r) service)) m.

(** The provider serves [svc] on some page of the cluster's listing. *)
Definition service_served (aws : Provider) (cluster_n : string) (svc : string)
    : Prop :=
  exists start page,
    page ∈ fst (list_services_pages aws cluster_n start) /\
    svc ∈ serviceArns page.

(** The provider ends some page iterator of the cluster's listing in the
    error [e]. *)
Definition listing_error (aws : Provider) (cluster_n : string) (e : exn)
    : Prop :=
  exists start, snd (list_services_pages aws cluster_n start) = Some e.

(** * Properties *)

(** ** The string primitives *)

Example split1_last_one_sep :
  PyStr.split1_last "/" "arn:aws:ecs:eu-west-1:1:task/0123abcd" = "0123abcd".
Proof. reflexivity. Qed.

Example split1_last_no_sep : PyStr.split1_last ":" "nginx" = "nginx".
Proof. reflexivity. Qed.

Example after_last_two : PyStr.after_last "/" "a/b/c" = "c".
Proof. reflexivity. Qed.

Example drop_last_dot : PyStr.drop_last "app.example.com." = "app.example.com".
Proof. reflexivity. Qed.

Example lower_http : PyStr.lower "HTTP" = "http".
Proof. reflexivity. Qed.

Example sort_three : PyStr.sort ["b"; "a"; "B"] = ["B"; "a"; "b"].
Proof. reflexivity. Qed.

Lemma split1_last_after_first sep s : PyStr.split1_last sep s = after_first sep s.
Proof.
  unfold PyStr.split1_last, PyStr.split_max1, after_first.
  destruct (PyStr.cut_first sep s) as [[before after]|]; reflexivity.
Qed.

Lemma append_nil s : "" +:+ s = s.
Proof. reflexivity. Qed.

Lemma append_cons c s t : String c s +:+ t = String c (s +:+ t).
Proof. reflexivity. Qed.

Lemma cut_first_app sep before after :
  free_of sep before = true ->
  PyStr.cut_first sep (before +:+ String sep after) = Some (before, after).
Proof.
  induction before as [|c before IH];
    rewrite ?append_nil, ?append_cons; cbn [PyStr.cut_first free_of];
    intros Hfree.
  - now rewrite Ascii.eqb_refl.
  - apply andb_prop in Hfree as [Hc Hrest].
    apply negb_true_iff in Hc. rewrite Hc, (IH Hrest). reflexivity.
Qed.

Lemma cut_first_free sep s : free_of sep s = true -> PyStr.cut_first sep s = None.
Proof.
  induction s as [|c s IH]; cbn [PyStr.cut_first free_of]; intros Hfree;
    [reflexivity|].
  apply andb_prop in Hfree as [Hc Hrest].
  apply negb_true_iff in Hc. rewrite Hc, (IH Hrest). reflexivity.
Qed.

Lemma cut_first_sep sep before after :
  PyStr.cut_first sep (before +:+ String sep after) <> None.
Proof.
  induction before as [|c before IH];
    rewrite ?append_nil, ?append_cons; cbn [PyStr.cut_first].
  - now rewrite Ascii.eqb_refl.
  - destruct (Ascii.eqb c sep); [discriminate|].
    destruct (PyStr.cut_first sep (before +:+ String sep after))
      as [[? ?]|]; [discriminate | contradiction].
Qed.

(** [after_first] is what its name says. *)
Lemma after_first_app sep before after :
  free_of sep before = true ->
  after_first sep (before +:+ String sep after) = after.
Proof. intros Hfree. unfold after_first. now rewrite cut_first_app. Qed.

Lemma after_first_free sep s : free_of sep s = true -> after_first sep s = s.
Proof. intros Hfree. unfold after_first. now rewrite cut_first_free. Qed.

(** [after_last] is what its name says. *)
Lemma after_last_free sep s : free_of sep s = true -> PyStr.after_last sep s = s.
Proof.
  induction s as [|c s IH]; cbn [PyStr.after_last free_of]; intros Hfree;
    [reflexivity|].
  apply andb_prop in Hfree as [Hc Hrest]. apply negb_true_iff in Hc.
  now rewrite (cut_first_free _ _ Hrest), Hc.
Qed.

Lemma after_last_app sep before after :
  free_of sep after = true ->
  PyStr.after_last sep (before +:+ String sep after) = after.
Proof.
  intros Hfree.
  induction before as [|c before IH];
    rewrite ?append_nil, ?append_cons; cbn [PyStr.after_last].
  - rewrite (cut_first_free _ _ Hfree), Ascii.eqb_refl. reflexivity.
  - destruct (PyStr.cut_first sep (before +:+ String sep after)) eqn:Hcut.
    + exact IH.
    + now apply cut_first_sep in Hcut.
Qed.

(** The two readings agree on a text with exactly one separator. *)
Lemma after_first_last_one_sep sep before after :
  free_of sep before = true -> free_of sep after = true ->
  after_first sep (before +:+ String sep after) =
    PyStr.after_last sep (before +:+ String sep after).
Proof.
  intros Hb Ha. now rewrite after_first_app, after_last_app.
Qed.

Lemma drop_last_root_dot name : PyStr.drop_last (name +:+ ".") = name.
Proof.
  induction name as [|c name IH]; [reflexivity|].
  rewrite append_cons. cbn [PyStr.drop_last]. rewrite IH.
  destruct name; reflexivity.
Qed.

(** ** [list.sort()] *)

Lemma insert_sorted_perm x l : Permutation (PyStr.insert_sorted x l) (x :: l).
Proof.
  induction l as [|y l IH]; cbn [PyStr.insert_sorted]; [reflexivity|].
  destruct (String.leb x y); [reflexivity|].
  rewrite IH. apply perm_swap.
Qed.

Lemma sort_perm l : Permutation (PyStr.sort l) l.
Proof.
  induction l as [|x l IH]; [reflexivity|].
  cbn [PyStr.sort fold_right]. fold (PyStr.sort l).
  rewrite insert_sorted_perm. now apply perm_skip.
Qed.

Lemma insert_sorted_hd x y l :
  string_le y x -> HdRel string_le y l -> HdRel string_le y (PyStr.insert_sorted x l).
Proof.
  intros Hyx Hhd. destruct l as [|z l]; cbn [PyStr.insert_sorted].
  - now constructor.
  - destruct (String.leb x z); constructor; [exact Hyx|].
    now inversion Hhd.
Qed.

Lemma insert_sorted_sorted x l :
  Sorted string_le l -> Sorted string_le (PyStr.insert_sorted x l).
Proof.
  induction l as [|y l IH]; intros Hsorted; cbn [PyStr.insert_sorted].
  - repeat constructor.
  - inversion Hsorted as [|? ? Hrest Hhd]; subst.
    destruct (String.leb x y) eqn:Hxy.
    + constructor; [exact Hsorted | now constructor].
    + constructor; [now apply IH|].
      apply insert_sorted_hd; [|exact Hhd].
      destruct (String.leb_total x y) as [Hle|Hle]; [congruence | exact Hle].
Qed.

(** The sorted list is ordered and has the elements of the input. *)
Lemma sort_sorted l : Sorted string_le (PyStr.sort l).
Proof.
  induction l as [|x l IH]; [constructor|].
  cbn [PyStr.sort fold_right]. now apply insert_sorted_sorted.
Qed.

(** ** Running the monad *)

Section Run.

Context {A B : Type}.

Lemma run_bind (m : M A) (k : A -> M B) s a s' :
  m s = (Ret a, s') -> bind m k s = k a s'.
Proof. intros Hm. unfold bind. now rewrite Hm. Qed.

Lemma run_bind_exit (m : M A) (k : A -> M B) s code s' :
  m s = (Exit code, s') -> bind m k s = (Exit code, s').
Proof. intros Hm. unfold bind. now rewrite Hm. Qed.

Lemma run_bind_raise (m : M A) (k : A -> M B) s e s' :
  m s = (Raise e, s') -> bind m k s = (Raise e, s').
Proof. intros Hm. unfold bind. now rewrite Hm. Qed.

Lemma run_bind_diverge (m : M A) (k : A -> M B) s s' :
  m s = (Diverge, s') -> bind m k s = (Diverge, s').
Proof. intros Hm. unfold bind. now rewrite Hm. Qed.

Lemma bind_assoc {C} (m : M A) (k : A -> M B) (k' : B -> M C) s :
  bind (bind m k) k' s = bind m (fun a => bind (k a) k') s.
Proof. unfold bind. destruct (m s) as [[a| | |] s']; reflexivity. Qed.

End Run.

Lemma run_bind_print {B} text (k : unit -> M B) s :
  bind (print text) k s = k tt (State (stdout s ++ [Line text]) (requests s)).
Proof. reflexivity. Qed.

Lemma run_bind_log {B} r (k : unit -> M B) s :
  bind (log r) k s = k tt (State (stdout s) (requests s ++ [r])).
Proof. reflexivity. Qed.

Lemma run_bind_ret {A B} (a : A) (k : A -> M B) s : bind (ret a) k s = k a s.
Proof. reflexivity. Qed.

(** Run the first computation of a sequence: with the equation [H], or a
    [print], a [log] or a [ret]. *)
Tactic Notation "run_with" uconstr(H) :=
  repeat rewrite bind_assoc;
  erewrite (run_bind _ _ _ _ _ H); cbv beta.

Ltac run_print :=
  repeat rewrite bind_assoc; rewrite run_bind_print; cbn [stdout requests].

Ltac run_log :=
  repeat rewrite bind_assoc; rewrite run_bind_log; cbn [stdout requests].

Ltac run_ret := repeat rewrite bind_assoc; rewrite run_bind_ret.

Lemma bind_ret_inv {A B} (m : M A) (k : A -> M B) s b s' :
  bind m k s = (Ret b, s') ->
  exists a s1, m s = (Ret a, s1) /\ k a s1 = (Ret b, s').
Proof.
  unfold bind. destruct (m s) as [[a| | |] s1]; try discriminate.
  intros Hk. now exists a, s1.
Qed.

Lemma run_get_aws_client aws service profile_name s :
  session_client aws service profile_name = None ->
  get_aws_client aws service profile_name s =
    (Ret tt, State (stdout s) (requests s ++ [NewClient service profile_name])).
Proof. intros Hc. unfold get_aws_client, bind, log. cbn. now rewrite Hc. Qed.

Lemma run_get_aws_account_id aws profile_name account s :
  session_client aws "sts" profile_name = None ->
  get_caller_identity aws = inr account ->
  get_aws_account_id aws profile_name s =
    (Ret tt,
     State (stdout s ++ [Line ("account_id: " +:+ account)])
       (requests s ++ [NewClient "sts" profile_name] ++ [GetCallerIdentity])).
Proof.
  intros Hc Hid. unfold get_aws_account_id.
  rewrite (run_bind _ _ _ _ _ (run_get_aws_client _ _ _ _ Hc)).
  unfold bind, log, print. cbn. rewrite Hid. cbn.
  now rewrite <- app_assoc.
Qed.

(** The profile block makes no request. *)
Lemma resolve_profile_requests args environ s :
  requests (snd (resolve_profile args environ s)) = requests s.
Proof.
  unfold resolve_profile.
  destruct (PyStr.truthy (profile args)); [reflexivity|].
  destruct (environ !! "AWS_PROFILE"); reflexivity.
Qed.

(** ** Loops whose body has no effect *)

Lemma run_for_each_pure {A St} (f : St -> A -> St) (l : list A) acc s :
  for_each l (fun acc' x => ret (f acc' x)) acc s = (Ret (fold_left f l acc), s).
Proof.
  revert acc. induction l as [|x l IH]; intros acc; cbn [for_each fold_left];
    [reflexivity|].
  rewrite run_bind_ret. apply IH.
Qed.

Lemma run_for_pages_pure {P St} (f : St -> P -> St) req index
    (pages : list P) err acc s :
  for_pages req index pages err (fun acc' page => ret (f acc' page)) acc s =
    (match err with
     | Some e => Raise e
     | None => Ret (fold_left f pages acc)
     end,
     State (stdout s)
       (requests s
          ++ map req (seq index (length pages
                                   + match err with Some _ => 1 | None => 0 end)))).
Proof.
  revert index acc s. induction pages as [|page rest IH]; intros index acc s.
  - destruct err; cbn.
    + reflexivity.
    + rewrite app_nil_r. now destruct s.
  - cbn [for_pages]. rewrite run_bind_log, run_bind_ret, IH.
    cbn [stdout requests length Nat.add seq map].
    now rewrite <- app_assoc.
Qed.

Lemma run_for_each_print {A} (f : A -> string) (l : list A) s :
  for_each l (fun _ x => print (f x)) tt s =
    (Ret tt, State (stdout s ++ map (fun x => Line (f x)) l) (requests s)).
Proof.
  revert s. induction l as [|x l IH]; intros s; cbn [for_each map].
  - rewrite app_nil_r. now destruct s.
  - rewrite run_bind_print, IH. cbn [stdout requests].
    now rewrite <- app_assoc.
Qed.

Lemma fold_left_keep_last {A B} (g : A -> B) (l : list A) (acc : option B) :
  fold_left (fun _ x => Some (g x)) l acc =
    match last l with
    | Some x => Some (g x)
    | None => acc
    end.
Proof.
  revert acc. induction l as [|x l IH]; intros acc; [reflexivity|].
  cbn [fold_left]. rewrite IH. destruct l as [|y l]; [reflexivity|].
  change (last (x :: y :: l)) with (last (y :: l)).
  destruct (last (y :: l)) eqn:Hlast; [reflexivity|].
  apply last_None in Hlast. discriminate.
Qed.

Lemma fold_left_append {A B} (g : A -> B) (l : list A) (acc : list B) :
  fold_left (fun acc' x => acc' ++ [g x]) l acc = acc ++ map g l.
Proof.
  revert acc. induction l as [|x l IH]; intros acc; cbn.
  - now rewrite app_nil_r.
  - rewrite IH, <- app_assoc. reflexivity.
Qed.

(** ** What is printed and requested stays

    Every computation of the program only appends to the output and to
    the request log, however it ends. *)

Lemma extends_refl s : extends s s.
Proof. exists [], []. now rewrite !app_nil_r. Qed.

Lemma extends_trans s1 s2 s3 : extends s1 s2 -> extends s2 s3 -> extends s1 s3.
Proof.
  intros (o1 & r1 & Ho1 & Hr1) (o2 & r2 & Ho2 & Hr2).
  exists (o1 ++ o2), (r1 ++ r2).
  rewrite Ho2, Ho1, Hr2, Hr1, <- !app_assoc. auto.
Qed.

Create HintDb monotone.

Lemma monotone_ret {A} (a : A) : monotone (ret a).
Proof. intros s. apply extends_refl. Qed.

Lemma monotone_sys_exit {A} code : monotone (@sys_exit A code).
Proof. intros s. apply extends_refl. Qed.

Lemma monotone_raise {A} e : monotone (@raise A e).
Proof. intros s. apply extends_refl. Qed.

Lemma monotone_diverge {A} : monotone (@diverge A).
Proof. intros s. apply extends_refl. Qed.

Lemma monotone_print text : monotone (print text).
Proof. intros s. exists [Line text], []. cbn. now rewrite app_nil_r. Qed.

Lemma monotone_print_table rows : monotone (print_table rows).
Proof. intros s. exists [Table rows], []. cbn. now rewrite app_nil_r. Qed.

Lemma monotone_log r : monotone (log r).
Proof. intros s. exists [], [r]. cbn. now rewrite app_nil_r. Qed.

Lemma monotone_bind {A B} (m : M A) (k : A -> M B) :
  monotone m -> (forall a, monotone (k a)) -> monotone (bind m k).
Proof.
  intros Hm Hk s. unfold bind. specialize (Hm s).
  destruct (m s) as [[a| | |] s']; cbn in Hm; try exact Hm.
  eapply extends_trans; [exact Hm | apply Hk].
Qed.

Lemma monotone_try_except {A} (body : M A) caught handler :
  monotone body -> (forall e, monotone (handler e)) ->
  monotone (try_except body caught handler).
Proof.
  intros Hb Hh s. unfold try_except. specialize (Hb s).
  destruct (body s) as [[a| |e|] s']; cbn in Hb; try exact Hb.
  destruct (caught e); [|exact Hb].
  eapply extends_trans; [exact Hb | apply Hh].
Qed.

Lemma monotone_answer {A} (r : exn + A) : monotone (answer r).
Proof. destruct r; [apply monotone_raise | apply monotone_ret]. Qed.

Lemma monotone_index0 {A} (l : list A) : monotone (index0 l).
Proof. destruct l; [apply monotone_raise | apply monotone_ret]. Qed.

Lemma monotone_index_at {A} (l : list A) i : monotone (index_at l i).
Proof.
  unfold index_at. destruct (l !! i); [apply monotone_ret | apply monotone_raise].
Qed.

Lemma monotone_field {A} key (v : option A) : monotone (field key v).
Proof. destruct v; [apply monotone_ret | apply monotone_raise]. Qed.

Lemma monotone_subscript alb_info : monotone (subscript alb_info).
Proof. destruct alb_info; [apply monotone_ret | apply monotone_raise]. Qed.

Lemma monotone_for_each {A St} (l : list A) (body : St -> A -> M St) acc :
  (forall acc' x, monotone (body acc' x)) -> monotone (for_each l body acc).
Proof.
  intros Hb. revert acc.
  induction l as [|x l IH]; intros acc; cbn.
  - apply monotone_ret.
  - apply monotone_bind; [apply Hb | intros acc'; apply IH].
Qed.

Lemma monotone_for_pages {P St} req index (pages : list P) err
    (body : St -> P -> M St) acc :
  (forall acc' page, monotone (body acc' page)) ->
  monotone (for_pages req index pages err body acc).
Proof.
  intros Hb. revert index acc.
  induction pages as [|page rest IH]; intros index acc; cbn.
  - destruct err.
    + apply monotone_bind; [apply monotone_log | intros _; apply monotone_raise].
    + apply monotone_ret.
  - apply monotone_bind; [apply monotone_log | intros _].
    apply monotone_bind; [apply Hb | intros acc'; apply IH].
Qed.

#[export] Hint Resolve monotone_ret monotone_sys_exit monotone_raise
  monotone_diverge monotone_print monotone_print_table monotone_log
  monotone_answer monotone_index0 monotone_index_at monotone_field
  monotone_subscript : monotone.

(** One step of a monotonicity proof: split a sequence, a handler or a
    loop, or close a primitive. *)
Ltac monotone_step :=
  match goal with
  | |- monotone (bind _ _) => apply monotone_bind; [|intros ?]
  | |- monotone (try_except _ _ _) => apply monotone_try_except; [|intros ?]
  | |- monotone (for_each _ _ _) => apply monotone_for_each; intros ? ?
  | |- monotone (for_pages _ _ _ _ _ _) => apply monotone_for_pages; intros ? ?
  | |- monotone (if ?b then _ else _) => destruct b
  | |- monotone (match ?x with _ => _ end) => destruct x
  | |- monotone _ => solve [auto with monotone]
  end.

Ltac monotone_auto := repeat monotone_step.

Section Monotone.

Variable aws : Provider.

Lemma monotone_get_aws_client service profile_name :
  monotone (get_aws_client aws service profile_name).
Proof. unfold get_aws_client. monotone_auto. Qed.

Hint Resolve monotone_get_aws_client : monotone.

Lemma monotone_get_svc_tasks_list cluster_n svc_n profile_name :
  monotone (get_svc_tasks_list aws cluster_n svc_n profile_name).
Proof. unfold get_svc_tasks_list. monotone_auto. Qed.

Lemma monotone_get_tsk_def_img_tag tsk profile_name :
  monotone (get_tsk_def_img_tag aws tsk profile_name).
Proof. unfold get_tsk_def_img_tag. monotone_auto. Qed.

Hint Resolve monotone_get_tsk_def_img_tag : monotone.

Lemma monotone_display_svc_tsk task_list cluster profile_name :
  monotone (display_svc_tsk aws task_list cluster profile_name).
Proof. unfold display_svc_tsk, add_task_row. monotone_auto. Qed.

Lemma monotone_get_dns_records_100x zone_id next_token profile_name :
  monotone (get_dns_records_100x aws zone_id next_token profile_name).
Proof.
  unfold get_dns_records_100x. monotone_auto.
Qed.

Hint Resolve monotone_get_dns_records_100x : monotone.

Lemma monotone_dns_while fuel zone profile_name alb_info more :
  monotone (dns_while aws fuel zone profile_name alb_info more).
Proof.
  revert more. induction fuel as [|fuel IH]; intros more; cbn.
  - monotone_auto.
  - destruct (PyStr.truthy (page_nextToken more)); [|auto with monotone].
    apply monotone_bind; [auto with monotone | intros info].
    destruct (dnsMap more !! info_DNSName info); [auto with monotone|].
    apply monotone_bind; [auto with monotone | intros more'; apply IH].
Qed.

Hint Resolve monotone_dns_while : monotone.

Lemma monotone_main_dns fuel args profile_name alb_info :
  monotone (main_dns aws fuel args profile_name alb_info).
Proof. unfold main_dns. monotone_auto. Qed.

End Monotone.

(** ** C1: listing the services over several pages *)

Lemma page_requests_length cluster_n start pages :
  length (page_requests cluster_n start pages) = length pages.
Proof.
  revert start. induction pages as [|page rest IH]; intros start; cbn;
    [reflexivity | now rewrite IH].
Qed.

Lemma run_list_svc_while aws cluster_n pages :
  forall fuel svc_list cursor s,
    PyStr.truthy cursor = true ->
    one_page_per_call aws cluster_n cursor pages ->
    length pages <= fuel ->
    list_svc_while aws fuel cluster_n (svc_list, cursor) s =
      (Ret (svc_list ++ concat (map serviceArns pages), None),
       State (stdout s) (requests s ++ page_requests cluster_n cursor pages)).
Proof.
  induction pages as [|page rest IH]; intros fuel svc_list cursor s Hcursor
    Hcalls Hfuel; [contradiction|].
  destruct Hcalls as [Hcall Hrest].
  destruct fuel as [|fuel]; [cbn in Hfuel; lia|].
  cbn [list_svc_while snd fst]. rewrite Hcursor, Hcall. cbn [fst snd].
  erewrite run_bind; [|rewrite run_for_pages_pure; reflexivity].
  cbn [fold_left next_pass_body fst snd length Nat.add seq map stdout requests].
  unfold next_pass_body. cbn [fst snd].
  destruct rest as [|page' rest].
  - rewrite Hrest. destruct fuel; cbn; now rewrite !app_nil_r.
  - destruct Hrest as [Hnext Hcalls].
    rewrite (IH fuel _ _ _ Hnext Hcalls) by (cbn in Hfuel |- *; lia).
    cbn [stdout requests map concat page_requests].
    now rewrite <- !app_assoc.
Qed.

(** When every [paginate] call yields one page, [list_svc] prints the
    short names of the sorted concatenation of all pages, and requests
    each page once and nothing after the page without a cursor. *)
Lemma list_svc_one_page_per_call aws fuel cluster_n profile_name pages s :
  session_client aws "ecs" profile_name = None ->
  one_page_per_call aws cluster_n None pages ->
  length pages <= S fuel ->
  list_svc aws fuel cluster_n profile_name s =
    (Ret tt,
     State
       (stdout s
          ++ map (fun svc => Line (PyStr.split1_last "/" svc))
               (PyStr.sort (concat (map serviceArns pages))))
       (requests s ++ [NewClient "ecs" profile_name]
          ++ page_requests cluster_n None pages)).
Proof.
  intros Hc Hcalls Hfuel. unfold list_svc.
  run_with (run_get_aws_client _ _ _ _ Hc).
  destruct pages as [|page rest]; [contradiction|].
  destruct Hcalls as [Hcall Hrest].
  unfold try_except. rewrite Hcall. cbn [fst snd].
  erewrite run_bind; [|rewrite run_for_pages_pure; reflexivity].
  cbn [fold_left first_pass_body fst snd length Nat.add seq map stdout requests].
  unfold first_pass_body. cbn [fst snd].
  destruct rest as [|page' rest].
  - rewrite Hrest.
    erewrite run_bind; [|destruct fuel; reflexivity].
    rewrite run_for_each_print. cbn [stdout requests map concat page_requests].
    now rewrite !app_nil_r, <- !app_assoc.
  - destruct Hrest as [Hnext Hcalls].
    destruct (nextToken page) as [cursor|] eqn:Htoken; [|discriminate].
    erewrite run_bind;
      [|apply (run_list_svc_while aws cluster_n (page' :: rest) fuel _ _ _
                 Hnext Hcalls); cbn in Hfuel |- *; lia].
    rewrite run_for_each_print.
    cbn [fst stdout requests map concat page_requests]. rewrite Htoken.
    now rewrite <- !app_assoc.
Qed.

(** C1, at a cluster whose first [paginate] call yields a short page with
    the cursor ["t1"] and then the last page.  The sorted concatenation
    of both pages is "api", "web", and the pages take two requests.
    [list_svc] keeps only the last page of the first call,
    keeps the stale cursor ["t1"], requests the page after it once more,
    and prints "api" twice and "web" never. *)
Theorem list_svc_short_first_page_refetches :
  let run := list_svc Scenario.short_first_page 5 "prod" (Some "dev") initial in
  let expected :=
    map (fun svc => Line (PyStr.split1_last "/" svc))
      (PyStr.sort
         (serviceArns Scenario.page_web ++ serviceArns Scenario.page_api)) in
  fst run = Ret tt /\
  expected = [Line "api"; Line "web"] /\
  stdout (snd run) = [Line "api"; Line "api"] /\
  requests (snd run) =
    [NewClient "ecs" (Some "dev"); ListServicesPage "prod" None 0;
     ListServicesPage "prod" None 1; ListServicesPage "prod" (Some "t1") 0].
Proof. repeat split. Qed.

(** ** C2: the DNS correlation over a zone of several pages *)

(** A page that carries a cursor and holds the load balancer's name ends
    the search: the URL is printed and no further page is requested. *)
Lemma dns_while_match_stops aws fuel zone profile_name info more record_name s :
  PyStr.truthy (page_nextToken more) = true ->
  dnsMap more !! info_DNSName info = Some record_name ->
  dns_while aws (S fuel) zone profile_name (Some info) more s =
    (Ret tt, State (stdout s ++ [Line (r53_url info record_name)]) (requests s)).
Proof.
  intros Hcursor Hmatch. cbn [dns_while]. rewrite Hcursor.
  cbn [subscript]. rewrite run_bind_ret, Hmatch. reflexivity.
Qed.

(** A first page without a cursor is searched before the loop. *)
Lemma main_dns_single_page_match aws fuel args profile_name info more
    record_name s s' :
  PyStr.truthy (dns args) = true ->
  PyStr.truthy (svc args) = true ->
  get_dns_records_100x aws (default "" (dns args)) None profile_name s =
    (Ret more, s') ->
  page_nextToken more = None ->
  dnsMap more !! info_DNSName info = Some record_name ->
  main_dns aws fuel args profile_name (Some info) s =
    (Ret tt,
     State (stdout s' ++ [Line (r53_url info record_name)]) (requests s')).
Proof.
  intros Hdns Hsvc Hfetch Hcursor Hmatch.
  unfold main_dns. rewrite Hdns, Hsvc. cbn [andb].
  run_with Hfetch. rewrite Hcursor. cbn [subscript].
  rewrite bind_assoc, run_bind_ret, Hmatch, run_bind_print.
  destruct fuel; cbn [dns_while]; now rewrite Hcursor.
Qed.

(** A page without the name, carrying a cursor, makes the loop fetch the
    next page; but the loop then tests the cursor of that page before
    its map, so a last page is fetched and never searched. *)
Lemma dns_while_last_page_unsearched aws fuel zone profile_name info more
    last_page s s' :
  PyStr.truthy (page_nextToken more) = true ->
  dnsMap more !! info_DNSName info = None ->
  get_dns_records_100x aws zone (page_nextToken more) profile_name s =
    (Ret last_page, s') ->
  PyStr.truthy (page_nextToken last_page) = false ->
  dns_while aws (S (S fuel)) zone profile_name (Some info) more s = (Ret tt, s').
Proof.
  intros Hcursor Hmiss Hfetch Hlast.
  cbn [dns_while]. rewrite Hcursor.
  cbn [subscript]. rewrite run_bind_ret, Hmiss.
  run_with Hfetch. now rewrite Hlast.
Qed.

(** C2, at a zone of two pages: a full page of 100 records, and a last
    page that holds the alias of the load balancer.  [main] fetches both
    pages, the second page's map does contain the load balancer's DNS
    name, and yet the run ends without an "R53 URL" line: the last page
    is dropped from the search. *)
Theorem main_dns_drops_last_page :
  let run := main Scenario.two_page_zone 3 Scenario.web_args ∅ initial in
  length (ResourceRecordSets Scenario.zone_page_1) = 100 /\
  fst run = Ret tt /\
  stdout (snd run) =
    [Line "account_id: 123456789012"; Line "cluster name: prod";
     Line "service name: web";
     Line "service url: http://lb-123.example.com/healthz";
     Table [TaskRow "a1b2" "web:7" "RUNNING" (Some "v2")]] /\
  List.filter dns_request (requests (snd run)) =
    [NewClient "route53" (Some "dev"); ListRecordSetsPage "Z123" None 0;
     NewClient "route53" (Some "dev");
     ListRecordSetsPage "Z123" (Some "n.example.com.") 0] /\
  (exists last_page s',
     get_dns_records_100x Scenario.two_page_zone "Z123"
       (Some "n.example.com.") (Some "dev") initial = (Ret last_page, s') /\
     page_nextToken last_page = None /\
     dnsMap last_page !! "lb-123.example.com" = Some "app.example.com").
Proof.
  repeat split.
  eexists. eexists. split; [reflexivity|].
  split; [reflexivity | vm_compute; reflexivity].
Qed.

(** ** C3: the image tag *)

Lemma run_get_tsk_def_img_tag aws tsk profile_name containerDefinitions s :
  session_client aws "ecs" profile_name = None ->
  describe_task_definition aws tsk = inr containerDefinitions ->
  get_tsk_def_img_tag aws tsk profile_name s =
    (Ret (image_suffix containerDefinitions),
     State (stdout s)
       (requests s ++ [NewClient "ecs" profile_name]
          ++ [DescribeTaskDefinition tsk])).
Proof.
  intros Hc Hd. unfold get_tsk_def_img_tag.
  run_with (run_get_aws_client _ _ _ _ Hc). run_log.
  rewrite Hd. cbn [answer]. run_ret.
  rewrite (run_for_each_pure (fun _ i => Some (PyStr.split1_last ":" (image i)))).
  rewrite (fold_left_keep_last (fun i => PyStr.split1_last ":" (image i))).
  unfold image_suffix. rewrite <- app_assoc.
  destruct (last containerDefinitions);
    now rewrite ?split1_last_after_first.
Qed.

(** What [get_tsk_def_img_tag] returns: [None] for a task definition
    without container definitions, and otherwise the text after the FIRST
    colon of the last container definition's image (the whole image
    reference when it has no colon). *)
Lemma get_tsk_def_img_tag_last_container aws tsk profile_name
    containerDefinitions s :
  session_client aws "ecs" profile_name = None ->
  describe_task_definition aws tsk = inr containerDefinitions ->
  fst (get_tsk_def_img_tag aws tsk profile_name s) =
    Ret (match last containerDefinitions with
         | Some definition => Some (after_first ":" (image definition))
         | None => None
         end).
Proof.
  intros Hc Hd. now rewrite (run_get_tsk_def_img_tag _ _ _ _ _ Hc Hd).
Qed.

Example image_tag_last_wins :
  fst (get_tsk_def_img_tag Scenario.web "web:7" (Some "dev") initial) =
    Ret (Some "v2").
Proof. reflexivity. Qed.

Example image_tag_absent :
  fst (get_tsk_def_img_tag Scenario.empty_provider "web:7" (Some "dev") initial) =
    Ret None.
Proof. reflexivity. Qed.

(** C3, at a task definition whose only container runs the image
    ["localhost:5000/app:v2"], from a registry named with its port.  The
    text after the last colon of the image reference, its tag, is
    ["v2"]; [get_tsk_def_img_tag], documented to return the container
    image tag, cuts at the first colon and returns ["5000/app:v2"]. *)
Theorem get_tsk_def_img_tag_registry_port :
  let run := get_tsk_def_img_tag Scenario.registry_port "web:7" (Some "dev")
               initial in
  PyStr.after_last ":" "localhost:5000/app:v2" = "v2" /\
  fst run = Ret (Some "5000/app:v2") /\
  fst run <> Ret (Some (PyStr.after_last ":" "localhost:5000/app:v2")).
Proof. repeat split. discriminate. Qed.

(** ** C4: the task identifier *)

Lemma run_get_svc_tasks_list aws cluster_n svc_n profile_name taskArns s :
  session_client aws "ecs" profile_name = None ->
  list_tasks aws cluster_n svc_n = inr taskArns ->
  get_svc_tasks_list aws cluster_n svc_n profile_name s =
    (Ret (map (after_first "/") taskArns),
     State (stdout s)
       (requests s ++ [NewClient "ecs" profile_name]
          ++ [ListTasks cluster_n svc_n])).
Proof.
  intros Hc Hl. unfold get_svc_tasks_list.
  run_with (run_get_aws_client _ _ _ _ Hc). run_log.
  rewrite Hl. cbn [answer]. run_ret.
  rewrite (run_for_each_pure
             (fun tasks_list i => tasks_list ++ [PyStr.split1_last "/" i])).
  rewrite (fold_left_append (PyStr.split1_last "/")), <- app_assoc.
  cbn [app]. do 2 f_equal. apply map_ext. intros arn.
  apply split1_last_after_first.
Qed.

(** The loop of [display_svc_tsk] adds one row per described task, and
    the row at position [n] carries [task_list[n]]. *)
Lemma run_add_task_rows aws task_list profile_name tasks :
  session_client aws "ecs" profile_name = None ->
  (forall task, task ∈ tasks ->
     exists containerDefinitions,
       describe_task_definition aws (taskDefinitionArn task) =
         inr containerDefinitions) ->
  forall rows index s,
    index + length tasks <= length task_list ->
    exists rows' s',
      for_each tasks (add_task_row aws task_list profile_name) (rows, index) s =
        (Ret (rows ++ rows', index + length tasks), s') /\
      stdout s' = stdout s /\
      map row_task_id rows' = take (length tasks) (drop index task_list).
Proof.
  intros Hc. induction tasks as [|task tasks IH]; intros Hdef rows index s Hlen.
  - exists [], s. cbn. rewrite app_nil_r, Nat.add_0_r. auto.
  - destruct (Hdef task) as [cds Hcds]; [left|].
    destruct (lookup_lt_is_Some_2 task_list index) as [task_id Hid];
      [cbn in Hlen; lia|].
    cbn [for_each]. unfold add_task_row at 1.
    run_with (run_get_tsk_def_img_tag _ _ _ _ _ Hc Hcds).
    unfold index_at. cbn [fst snd]. rewrite Hid. run_ret. run_ret.
    match goal with
    | |- context [for_each _ _ (?rows1, _) ?s1] =>
        destruct (IH (fun t Ht => Hdef t (list_elem_of_further _ _ _ Ht))
                    rows1 (S index) s1) as (rows' & s' & Hrun & Hout & Hids);
          [cbn in Hlen; lia|]
    end.
    eexists (_ :: rows'), s'. split; [|split].
    + rewrite Hrun, <- app_assoc. cbn [app length].
      now rewrite Nat.add_succ_r.
    + exact Hout.
    + cbn [map row_task_id length]. rewrite Hids.
      rewrite (drop_S _ _ _ Hid). reflexivity.
Qed.

Lemma run_display_svc_tsk aws task_list cluster profile_name tasks s :
  session_client aws "ecs" profile_name = None ->
  describe_tasks aws cluster task_list = inr tasks ->
  (forall task, task ∈ tasks ->
     exists containerDefinitions,
       describe_task_definition aws (taskDefinitionArn task) =
         inr containerDefinitions) ->
  length tasks <= length task_list ->
  exists rows s',
    display_svc_tsk aws task_list cluster profile_name s = (Ret tt, s') /\
    stdout s' = stdout s ++ [Table rows] /\
    map row_task_id rows = take (length tasks) task_list.
Proof.
  intros Hc Hd Hdef Hlen. unfold display_svc_tsk.
  run_with (run_get_aws_client _ _ _ _ Hc). run_log.
  rewrite Hd. cbn [answer]. run_ret.
  match goal with
  | |- context [bind (for_each _ _ _) _ ?s1] =>
      destruct (run_add_task_rows aws task_list profile_name tasks Hc Hdef
                  [] 0 s1 Hlen) as (rows & s' & Hrun & Hout & Hids)
  end.
  run_with Hrun. cbn [fst app].
  exists rows. eexists. split; [reflexivity|].
  cbn [stdout]. rewrite Hout. cbn [stdout]. split; [reflexivity | exact Hids].
Qed.

(** C4, at the task identifier
    ["arn:aws:ecs:eu-west-1:123456789012:task/prod/0123abcd"], the
    provider's long form that names the cluster.  The text after its last
    separator, the task identifier, is ["0123abcd"];
    [get_svc_tasks_list] cuts at the first ["/"] and extracts
    ["prod/0123abcd"], which [main] then sends to [describe_tasks] and
    prints in the "Task ID" column of the table. *)
Theorem get_svc_tasks_list_long_task_arn :
  let arn := "arn:aws:ecs:eu-west-1:123456789012:task/prod/0123abcd" in
  let listed := get_svc_tasks_list Scenario.long_task_arn "prod" "web"
                  (Some "dev") initial in
  let run := main Scenario.long_task_arn 3 Scenario.tasks_only_args ∅ initial in
  list_tasks Scenario.long_task_arn "prod" "web" = inr [arn] /\
  PyStr.after_last "/" arn = "0123abcd" /\
  fst listed = Ret ["prod/0123abcd"] /\
  fst listed <> Ret [PyStr.after_last "/" arn] /\
  fst run = Ret tt /\
  stdout (snd run) =
    [Line "account_id: 123456789012"; Line "cluster name: prod";
     Line "service name: web";
     Table [TaskRow "prod/0123abcd" "web:7" "RUNNING" (Some "v1")]] /\
  In (DescribeTasks "prod" ["prod/0123abcd"]) (requests (snd run)).
Proof.
  repeat split; [discriminate|]. cbn. tauto.
Qed.

(** What [get_svc_tasks_list] returns in general: in the provider's
    order, the text after the first ["/"] of each task identifier (the
    whole identifier when it has no ["/"]); and when [display_svc_tsk] is
    given that list and the provider describes the tasks and their task
    definitions, it prints one table whose rows carry these identifiers
    in the same order, one per described task. *)
Theorem task_ids_after_first_separator aws cluster_n svc_n profile_name
    taskArns tasks s :
  session_client aws "ecs" profile_name = None ->
  list_tasks aws cluster_n svc_n = inr taskArns ->
  describe_tasks aws cluster_n (map (after_first "/") taskArns) = inr tasks ->
  (forall task, task ∈ tasks ->
     exists containerDefinitions,
       describe_task_definition aws (taskDefinitionArn task) =
         inr containerDefinitions) ->
  length tasks <= length taskArns ->
  exists s1 rows s2,
    get_svc_tasks_list aws cluster_n svc_n profile_name s =
      (Ret (map (after_first "/") taskArns), s1) /\
    display_svc_tsk aws (map (after_first "/") taskArns) cluster_n
      profile_name s1 = (Ret tt, s2) /\
    stdout s2 = stdout s ++ [Table rows] /\
    map row_task_id rows =
      take (length tasks) (map (after_first "/") taskArns).
Proof.
  intros Hc Hl Hd Hdef Hlen.
  eexists. 
  destruct (run_display_svc_tsk aws (map (after_first "/") taskArns) cluster_n
              profile_name tasks
              (State (stdout s)
                 (requests s ++ [NewClient "ecs" profile_name]
                    ++ [ListTasks cluster_n svc_n]))
              Hc Hd Hdef) as (rows & s2 & Hrun & Hout & Hids).
  { now rewrite length_map. }
  exists rows, s2. split; [|split; [|split]].
  - apply (run_get_svc_tasks_list _ _ _ _ _ _ Hc Hl).
  - exact Hrun.
  - exact Hout.
  - exact Hids.
Qed.

Lemma task_ids_after_first_separator_witness :
  exists s1 rows s2,
    get_svc_tasks_list Scenario.long_task_arn "prod" "web" (Some "dev") initial =
      (Ret (map (after_first "/")
              ["arn:aws:ecs:eu-west-1:123456789012:task/prod/0123abcd"]), s1) /\
    display_svc_tsk Scenario.long_task_arn
      (map (after_first "/")
         ["arn:aws:ecs:eu-west-1:123456789012:task/prod/0123abcd"])
      "prod" (Some "dev") s1 = (Ret tt, s2) /\
    stdout s2 = stdout initial ++ [Table rows] /\
    map row_task_id rows =
      take
        (length
           [TaskDescription
              "arn:aws:ecs:eu-west-1:123456789012:task-definition/web:7"
              "RUNNING"])
        (map (after_first "/")
           ["arn:aws:ecs:eu-west-1:123456789012:task/prod/0123abcd"]).
Proof.
  apply (task_ids_after_first_separator Scenario.long_task_arn "prod" "web"
           (Some "dev")
           ["arn:aws:ecs:eu-west-1:123456789012:task/prod/0123abcd"]
           [TaskDescription
              "arn:aws:ecs:eu-west-1:123456789012:task-definition/web:7"
              "RUNNING"]
           initial).
  - reflexivity.
  - reflexivity.
  - reflexivity.
  - intros task _. exists [ContainerDefinition "repo:v1"]. reflexivity.
  - cbn. lia.
Defined.

(** ** C5: listing the services of a missing cluster *)

Lemma run_list_svc_error aws fuel cluster_n profile_name pages e s :
  session_client aws "ecs" profile_name = None ->
  list_services_pages aws cluster_n None = (pages, Some e) ->
  list_svc aws fuel cluster_n profile_name s =
    (Ret tt,
     State
       (stdout s
          ++ [Line "Cannot find ECS services from the provided ECS cluster";
              Line (str_exn e)])
       (requests s ++ [NewClient "ecs" profile_name]
          ++ map (ListServicesPage cluster_n None) (seq 0 (length pages + 1)))).
Proof.
  intros Hc Hpages. unfold list_svc.
  run_with (run_get_aws_client _ _ _ _ Hc).
  unfold try_except. rewrite Hpages. cbn [fst snd].
  erewrite run_bind_raise; [|rewrite run_for_pages_pure; reflexivity].
  cbn [any_exception stdout requests].
  rewrite run_bind_print. unfold print. cbn [stdout requests].
  now rewrite <- !app_assoc.
Qed.

(** For a cluster that does not exist, [main] returns normally: the
    process ends with status 0, not with a non-zero one. *)
Lemma list_svc_missing_cluster_returns_normally :
  let run := main Scenario.no_cluster 5 Scenario.list_args ∅ initial in
  fst run = Ret tt /\
  stdout (snd run) =
    [Line "account_id: 123456789012"; Line "cluster name: prod";
     Line "Cannot find ECS services from the provided ECS cluster";
     Line "ClusterNotFoundException"] /\
  ~ (exists code, code <> 0%Z /\ fst run = Exit code).
Proof.
  repeat split. intros (code & _ & Hexit). discriminate Hexit.
Qed.

(** C5, amended. When listing the services fails on the first [paginate]
    call (as it does for a cluster that does not exist), [list_svc]
    catches the error, prints "Cannot find ECS services from the provided
    ECS cluster" and the error's text, and returns; [main], run without
    [--svc], then returns normally, so the process ends with status 0 and
    no exception propagates. *)
Theorem main_list_svc_error_is_reported aws fuel args
    (environ : gmap string string) profile_name s0 account pages e :
  resolve_profile args environ initial = (Ret profile_name, s0) ->
  (forall service, session_client aws service profile_name = None) ->
  get_caller_identity aws = inr account ->
  PyStr.truthy (svc args) = false ->
  list_services_pages aws (cluster args) None = (pages, Some e) ->
  let run := main aws fuel args environ initial in
  fst run = Ret tt /\
  stdout (snd run) =
    stdout s0
      ++ [Line ("account_id: " +:+ account);
          Line ("cluster name: " +:+ cluster args);
          Line "Cannot find ECS services from the provided ECS cluster";
          Line (str_exn e)].
Proof.
  intros Hp Hc Hid Hsvc Hpages run. subst run.
  unfold main, main_report.
  run_with Hp.
  run_with (run_get_aws_account_id _ _ _ _ (Hc _) Hid).
  run_print. rewrite Hsvc.
  run_with (run_list_svc_error _ fuel _ _ _ _ _ (Hc _) Hpages).
  do 2 run_ret. unfold main_dns. rewrite Hsvc, andb_false_r.
  cbn [ret fst snd stdout]. split; [reflexivity|].
  now rewrite <- !app_assoc.
Qed.

Lemma main_list_svc_error_is_reported_witness :
  let run := main Scenario.no_cluster 5 Scenario.list_args ∅ initial in
  fst run = Ret tt /\
  stdout (snd run) =
    stdout initial
      ++ [Line "account_id: 123456789012"; Line "cluster name: prod";
          Line "Cannot find ECS services from the provided ECS cluster";
          Line (str_exn (ProviderError "ClusterNotFoundException"))].
Proof.
  apply (main_list_svc_error_is_reported Scenario.no_cluster 5
           Scenario.list_args ∅ (Some "dev") initial "123456789012" []
           (ProviderError "ClusterNotFoundException"));
    reflexivity.
Defined.

(** ** C6: the DNS correlation without [--alb] *)

(** [alb_info] is set exactly when [--alb] is: a report that ends
    normally for a named service leaves [None] without [--alb] and a
    health-check record with it. *)
Lemma main_report_alb_info aws fuel args (environ : gmap string string)
    profile_name alb_info s1 :
  PyStr.truthy (svc args) = true ->
  main_report aws fuel args environ initial =
    (Ret (profile_name, alb_info), s1) ->
  if alb args then is_Some alb_info else alb_info = None.
Proof.
  intros Hsvc Hrun. unfold main_report in Hrun. rewrite Hsvc in Hrun.
  apply bind_ret_inv in Hrun as (p & sa & _ & Hrun).
  apply bind_ret_inv in Hrun as ([] & sb & _ & Hrun).
  apply bind_ret_inv in Hrun as ([] & sc & _ & Hrun).
  apply bind_ret_inv in Hrun as (info & sd & Hservice & Hrun).
  injection Hrun as _ <- _.
  apply bind_ret_inv in Hservice as ([] & se & _ & Hservice).
  apply bind_ret_inv in Hservice as (info' & sf & Halb & Hservice).
  apply bind_ret_inv in Hservice as (tasks & sg & _ & Hservice).
  apply bind_ret_inv in Hservice as ([] & sh & _ & Hservice).
  injection Hservice as <- _.
  destruct (alb args).
  - apply bind_ret_inv in Halb as (tg & si & _ & Halb).
    apply bind_ret_inv in Halb as (health & sj & _ & Halb).
    apply bind_ret_inv in Halb as ([] & sk & _ & Halb).
    injection Halb as <- _. eauto.
  - now injection Halb as <- _.
Qed.

(** C6. Run [main] with [--svc] and [--dns] but without [--alb], and let
    the report and the first fetch of the zone succeed, the fetch ending
    on a page with no cursor or with a (non-empty) cursor.  Then [main]
    reaches the DNS correlation with [alb_info] still [None], and
    subscripting it raises [TypeError], which nothing catches: the run
    ends in that exception right after the first fetch. *)
Theorem main_dns_without_alb_raises_TypeError aws fuel args
    (environ : gmap string string) profile_name alb_info s1 more s2 :
  alb args = false ->
  PyStr.truthy (svc args) = true ->
  PyStr.truthy (dns args) = true ->
  fuel <> 0 ->
  main_report aws fuel args environ initial =
    (Ret (profile_name, alb_info), s1) ->
  get_dns_records_100x aws (default "" (dns args)) None profile_name s1 =
    (Ret more, s2) ->
  page_nextToken more <> Some "" ->
  alb_info = None /\
  main aws fuel args environ initial = (Raise TypeError, s2).
Proof.
  intros Halb Hsvc Hdns Hfuel Hreport Hfetch Hcursor.
  pose proof (main_report_alb_info _ _ _ _ _ _ _ Hsvc Hreport) as Hinfo.
  rewrite Halb in Hinfo. subst alb_info. split; [reflexivity|].
  unfold main. run_with Hreport. cbn [fst snd].
  unfold main_dns. rewrite Hsvc, Hdns. cbn [andb].
  run_with Hfetch.
  destruct (page_nextToken more) as [cursor|] eqn:Htoken.
  - rewrite run_bind_ret.
    destruct fuel as [|fuel]; [contradiction|].
    cbn [dns_while]. rewrite Htoken.
    destruct cursor as [|c cursor]; [contradiction|].
    reflexivity.
  - reflexivity.
Qed.

Lemma main_dns_without_alb_raises_TypeError_witness :
  let report := main_report Scenario.web 3 Scenario.no_alb_args ∅ initial in
  let fetch :=
    get_dns_records_100x Scenario.web "Z123" None (Some "dev") (snd report) in
  (None : option alb_health) = None /\
  main Scenario.web 3 Scenario.no_alb_args ∅ initial =
    (Raise TypeError, snd fetch).
Proof.
  intros report fetch.
  apply (main_dns_without_alb_raises_TypeError Scenario.web 3
           Scenario.no_alb_args ∅ (Some "dev") None (snd report)
           (DnsPage None {["lb-123.example.com" := "app.example.com"]})
           (snd fetch)).
  - reflexivity.
  - reflexivity.
  - reflexivity.
  - discriminate.
  - reflexivity.
  - vm_compute. reflexivity.
  - discriminate.
Defined.

Example main_dns_without_alb_run :
  main Scenario.web 3 Scenario.no_alb_args ∅ initial =
    (Raise TypeError,
     State
       [Line "account_id: 123456789012"; Line "cluster name: prod";
        Line "service name: web";
        Table [TaskRow "a1b2" "web:7" "RUNNING" (Some "v2")]]
       [NewClient "sts" (Some "dev"); GetCallerIdentity;
        NewClient "ecs" (Some "dev"); ListTasks "prod" "web";
        NewClient "ecs" (Some "dev"); DescribeTasks "prod" ["a1b2"];
        NewClient "ecs" (Some "dev");
        DescribeTaskDefinition
          "arn:aws:ecs:eu-west-1:123456789012:task-definition/web:7";
        NewClient "route53" (Some "dev"); ListRecordSetsPage "Z123" None 0]).
Proof. reflexivity. Qed.

(** ** C7: alias target to record name *)

Lemma fold_record_set_body pages cursor dnsMap0 :
  fold_left record_set_body pages (cursor, dnsMap0) =
    (match last pages with
     | Some page => NextRecordName page
     | None => cursor
     end,
     fold_left add_record (concat (map ResourceRecordSets pages)) dnsMap0).
Proof.
  revert cursor dnsMap0.
  induction pages as [|page pages IH]; intros cursor dnsMap0; [reflexivity|].
  cbn [fold_left map concat]. unfold record_set_body at 2. cbn [snd].
  rewrite IH, fold_left_app. f_equal.
  destruct pages as [|page' pages]; [reflexivity|].
  change (last (page :: page' :: pages)) with (last (page' :: pages)).
  destruct (last (page' :: pages)) eqn:Hlast; [reflexivity|].
  apply last_None in Hlast. discriminate.
Qed.

Lemma run_get_dns_records_100x aws zone_id next_token profile_name pages s :
  session_client aws "route53" profile_name = None ->
  list_record_sets_pages aws zone_id next_token = (pages, None) ->
  get_dns_records_100x aws zone_id next_token profile_name s =
    (Ret (DnsPage (last_cursor pages)
            (zone_map (concat (map ResourceRecordSets pages)))),
     State (stdout s)
       (requests s ++ [NewClient "route53" profile_name]
          ++ map (ListRecordSetsPage zone_id next_token)
               (seq 0 (length pages)))).
Proof.
  intros Hc Hpages. unfold get_dns_records_100x.
  run_with (run_get_aws_client _ _ _ _ Hc).
  unfold try_except. rewrite Hpages. cbn [fst snd].
  erewrite run_bind; [|rewrite run_for_pages_pure; reflexivity].
  rewrite fold_record_set_body. cbn [fst snd ret stdout requests].
  now rewrite Nat.add_0_r, <- app_assoc.
Qed.

Lemma add_record_other dnsMap0 record key :
  alias_key record <> Some key ->
  add_record dnsMap0 record !! key = dnsMap0 !! key.
Proof.
  unfold add_record, alias_key.
  destruct (String.eqb (Type_ record) "A"); [|reflexivity].
  destruct (AliasTarget record) as [target|]; [|reflexivity].
  intros Hkey. apply lookup_insert_ne. congruence.
Qed.

Lemma fold_add_record_others records dnsMap0 key :
  Forall (fun record => alias_key record <> Some key) records ->
  fold_left add_record records dnsMap0 !! key = dnsMap0 !! key.
Proof.
  revert dnsMap0.
  induction records as [|record records IH]; intros dnsMap0 Hall;
    [reflexivity|].
  inversion Hall as [|? ? Hrecord Hrest]; subst. cbn [fold_left].
  rewrite (IH _ Hrest). now apply add_record_other.
Qed.

(** The last record filed under a key decides the entry. *)
Lemma zone_map_last_alias before record after target :
  Type_ record = "A" ->
  AliasTarget record = Some target ->
  Forall (fun later =>
            alias_key later <> Some (PyStr.drop_last (alias_DNSName target)))
    after ->
  zone_map (before ++ record :: after)
    !! PyStr.drop_last (alias_DNSName target) =
    Some (PyStr.drop_last (Name record)).
Proof.
  intros Htype Htarget Hafter. unfold zone_map.
  rewrite fold_left_app. cbn [fold_left].
  rewrite (fold_add_record_others _ _ _ Hafter).
  unfold add_record. rewrite Htype, Htarget. cbn.
  apply lookup_insert_eq.
Qed.

(** Two alias records for one load balancer: the map holds the name of
    the second, so the first record's target is not mapped to the first
    record's own name. *)
Lemma get_dns_records_100x_shared_target_keeps_last :
  exists more s',
    get_dns_records_100x Scenario.shared_target "Z123" None (Some "dev")
      initial = (Ret more, s') /\
    dnsMap more !! "lb-123.example.com" = Some "www.example.com" /\
    dnsMap more !! "lb-123.example.com" <> Some "app.example.com".
Proof.
  eexists. eexists. split; [reflexivity|].
  split; [vm_compute; reflexivity | vm_compute; discriminate].
Qed.

(** C7, amended. For an ["A"] record with an alias target that no later
    alias record of the fetched pages shares, [get_dns_records_100x] maps
    the alias target's DNS name without its trailing root dot to the
    record's own name without its trailing root dot (of several alias
    records with one target, the last is kept).  So in the run for
    service "web" with the record [app.example.com.] aliasing
    [lb-123.example.com.] and the load balancer [lb-123.example.com],
    the last line printed is [R53 URL: http://app.example.com/healthz]. *)
Theorem get_dns_records_100x_maps_alias_target aws zone_id next_token
    profile_name pages s before record after target_name record_name :
  session_client aws "route53" profile_name = None ->
  list_record_sets_pages aws zone_id next_token = (pages, None) ->
  concat (map ResourceRecordSets pages) = before ++ record :: after ->
  Type_ record = "A" ->
  AliasTarget record = Some (AliasTargetOf (target_name +:+ ".")) ->
  Name record = record_name +:+ "." ->
  Forall (fun later => alias_key later <> Some target_name) after ->
  (exists more s',
     get_dns_records_100x aws zone_id next_token profile_name s =
       (Ret more, s') /\
     dnsMap more !! target_name = Some record_name) /\
  last (stdout (snd (main Scenario.web 3 Scenario.web_args ∅ initial))) =
    Some (Line "R53 URL: http://app.example.com/healthz").
Proof.
  intros Hc Hpages Hrecords Htype Htarget Hname Hafter.
  split; [|reflexivity].
  eexists. eexists. split.
  - apply (run_get_dns_records_100x _ _ _ _ _ _ Hc Hpages).
  - cbn [dnsMap]. rewrite Hrecords.
    rewrite <- (drop_last_root_dot target_name) in Hafter |- * at 1.
    rewrite <- (drop_last_root_dot record_name), <- Hname.
    now apply (zone_map_last_alias before record after
                 (AliasTargetOf (target_name +:+ "."))).
Qed.

Lemma get_dns_records_100x_maps_alias_target_witness :
  (exists more s',
     get_dns_records_100x Scenario.web "Z123" None (Some "dev") initial =
       (Ret more, s') /\
     dnsMap more !! "lb-123.example.com" = Some "app.example.com") /\
  last (stdout (snd (main Scenario.web 3 Scenario.web_args ∅ initial))) =
    Some (Line "R53 URL: http://app.example.com/healthz").
Proof.
  apply (get_dns_records_100x_maps_alias_target Scenario.web "Z123" None
           (Some "dev")
           [RecordSetsPage
              [ResourceRecordSet "app.example.com." "A"
                 (Some (AliasTargetOf "lb-123.example.com."))]
              None]
           initial []
           (ResourceRecordSet "app.example.com." "A"
              (Some (AliasTargetOf "lb-123.example.com.")))
           [] "lb-123.example.com" "app.example.com");
    try reflexivity.
  constructor.
Defined.

(** ** C8: [--alb] for a service without a target *)

Lemma run_get_svc_alb_tg_arn_no_target aws cluster_n svc_n profile_name
    services s :
  session_client aws "ecs" profile_name = None ->
  describe_services aws cluster_n [svc_n] = inr services ->
  no_target services = true ->
  get_svc_alb_tg_arn aws cluster_n svc_n profile_name s =
    (Exit 1%Z,
     State (stdout s ++ no_target_diagnostic svc_n services)
       (requests s ++ [NewClient "ecs" profile_name]
          ++ [DescribeServices cluster_n [svc_n]])).
Proof.
  intros Hc Hd Hno. unfold get_svc_alb_tg_arn.
  rewrite (run_bind _ _ _ _ _ (run_get_aws_client _ _ _ _ Hc)).
  unfold bind at 1. unfold log. cbn.
  unfold bind at 1. rewrite Hd. cbn.
  destruct services as [|service rest]; cbn.
  - now rewrite <- app_assoc.
  - cbn in Hno. unfold try_except, bind. cbn.
    destruct (loadBalancers service); [|discriminate]. cbn.
    now rewrite <- !app_assoc.
Qed.

(** C8. With [--alb] and a named service that the cluster does not have,
    or that has no load balancer, [main] prints the diagnostic of that
    case and exits with status 1; the requests made are the identity
    lookup and the service description, so no DNS lookup is attempted,
    whatever [--dns] is. *)
Theorem main_alb_without_target_exits_1 aws fuel args
    (environ : gmap string string) profile_name s0 account svc_n services :
  resolve_profile args environ initial = (Ret profile_name, s0) ->
  (forall service, session_client aws service profile_name = None) ->
  get_caller_identity aws = inr account ->
  svc args = Some svc_n ->
  PyStr.nonempty svc_n = true ->
  alb args = true ->
  describe_services aws (cluster args) [svc_n] = inr services ->
  no_target services = true ->
  let run := main aws fuel args environ initial in
  fst run = Exit 1%Z /\
  stdout (snd run) =
    stdout s0
      ++ [Line ("account_id: " +:+ account);
          Line ("cluster name: " +:+ cluster args);
          Line ("service name: " +:+ svc_n)]
      ++ no_target_diagnostic svc_n services /\
  requests (snd run) =
    [NewClient "sts" profile_name; GetCallerIdentity;
     NewClient "ecs" profile_name; DescribeServices (cluster args) [svc_n]] /\
  existsb dns_request (requests (snd run)) = false.
Proof.
  intros Hp Hc Hid Hsvc Hne Halb Hd Hno run.
  assert (Hreq : requests s0 = []).
  { pose proof (resolve_profile_requests args environ initial) as Hr.
    now rewrite Hp in Hr. }
  assert (Hrun : run =
    (Exit 1%Z,
     State (stdout s0
              ++ [Line ("account_id: " +:+ account);
                  Line ("cluster name: " +:+ cluster args);
                  Line ("service name: " +:+ svc_n)]
              ++ no_target_diagnostic svc_n services)
       [NewClient "sts" profile_name; GetCallerIdentity;
        NewClient "ecs" profile_name; DescribeServices (cluster args) [svc_n]])).
  { subst run. unfold main. apply run_bind_exit.
    unfold main_report.
    rewrite (run_bind _ _ _ _ _ Hp).
    rewrite (run_bind _ _ _ _ _ (run_get_aws_account_id _ _ _ _ (Hc _) Hid)).
    unfold PyStr.truthy at 1. rewrite Hsvc, Hne, Halb. cbn [default id].
    unfold bind at 1. unfold print at 1.
    apply run_bind_exit. unfold bind at 1. unfold print at 1.
    apply run_bind_exit. apply run_bind_exit.
    rewrite (run_get_svc_alb_tg_arn_no_target _ _ _ _ _ _ (Hc _) Hd Hno).
    cbn [stdout requests]. rewrite Hreq. cbn.
    now rewrite <- !app_assoc. }
  rewrite Hrun. cbn [fst snd stdout requests]. repeat split; reflexivity.
Qed.

Lemma main_alb_without_target_exits_1_witness :
  let run := main Scenario.no_load_balancer 3 Scenario.web_args ∅ initial in
  fst run = Exit 1%Z /\
  stdout (snd run) =
    [] ++ [Line "account_id: 123456789012"; Line "cluster name: prod";
           Line "service name: web"]
       ++ [Line "This service does not connect to a load balancer.";
           Line "list index out of range"] /\
  requests (snd run) =
    [NewClient "sts" (Some "dev"); GetCallerIdentity;
     NewClient "ecs" (Some "dev"); DescribeServices "prod" ["web"]] /\
  existsb dns_request (requests (snd run)) = false.
Proof.
  apply (main_alb_without_target_exits_1 Scenario.no_load_balancer 3
           Scenario.web_args ∅ (Some "dev") initial "123456789012" "web"
           [ServiceDescription []]);
    reflexivity.
Defined.

(** ** C9: the service URL *)

Lemma run_get_svc_alb_tg_arn aws cluster_n svc_n profile_name tg_arn lbs
    services s :
  session_client aws "ecs" profile_name = None ->
  describe_services aws cluster_n [svc_n] =
    inr (ServiceDescription (ServiceLoadBalancer (Some tg_arn) :: lbs)
           :: services) ->
  get_svc_alb_tg_arn aws cluster_n svc_n profile_name s =
    (Ret tg_arn,
     State (stdout s)
       (requests s ++ [NewClient "ecs" profile_name]
          ++ [DescribeServices cluster_n [svc_n]])).
Proof.
  intros Hc Hd. unfold get_svc_alb_tg_arn.
  rewrite (run_bind _ _ _ _ _ (run_get_aws_client _ _ _ _ Hc)).
  unfold bind at 1. unfold log. cbn.
  unfold bind at 1. rewrite Hd. cbn.
  now rewrite <- app_assoc.
Qed.

Lemma run_get_svc_alb_healthccheck_info aws tg_arn profile_name lb_arn arns
    protocol path tgs dns_name balancers s :
  session_client aws "elbv2" profile_name = None ->
  describe_target_groups aws [tg_arn] =
    inr (TargetGroup (lb_arn :: arns) protocol path :: tgs) ->
  describe_load_balancers aws [lb_arn] =
    inr (LoadBalancer dns_name :: balancers) ->
  get_svc_alb_healthccheck_info aws tg_arn profile_name s =
    (Ret (AlbHealth lb_arn protocol path dns_name),
     State (stdout s)
       (requests s ++ [NewClient "elbv2" profile_name]
          ++ [DescribeTargetGroups [tg_arn]]
          ++ [DescribeLoadBalancers [lb_arn]])).
Proof.
  intros Hc Htg Hlb. unfold get_svc_alb_healthccheck_info.
  run_with (run_get_aws_client _ _ _ _ Hc). run_log.
  rewrite Htg. cbn [answer]. run_ret. cbn [index0]. run_ret.
  cbn [index0 LoadBalancerArns]. run_ret.
  run_log. rewrite Hlb. cbn [answer]. run_ret. cbn [index0]. run_ret.
  cbn. now rewrite <- !app_assoc.
Qed.

(** C9. With [--alb] and a service whose first load balancer has a target
    group, the fourth line [main] prints after resolving the profile is
    ["service url: "] followed by the lower-cased health-check protocol,
    ["://"], the load balancer's DNS name and the health-check path;
    whatever the rest of the run does, the line stays on the output.  For
    protocol [HTTP], path [/healthz] and DNS name [lb-123.example.com]
    the URL is [http://lb-123.example.com/healthz]. *)
Theorem main_alb_prints_service_url aws fuel args
    (environ : gmap string string) profile_name s0 account svc_n tg_arn lbs
    services lb_arn arns protocol path tgs dns_name balancers :
  resolve_profile args environ initial = (Ret profile_name, s0) ->
  (forall service, session_client aws service profile_name = None) ->
  get_caller_identity aws = inr account ->
  svc args = Some svc_n ->
  PyStr.nonempty svc_n = true ->
  alb args = true ->
  describe_services aws (cluster args) [svc_n] =
    inr (ServiceDescription (ServiceLoadBalancer (Some tg_arn) :: lbs)
           :: services) ->
  describe_target_groups aws [tg_arn] =
    inr (TargetGroup (lb_arn :: arns) protocol path :: tgs) ->
  describe_load_balancers aws [lb_arn] =
    inr (LoadBalancer dns_name :: balancers) ->
  exists rest,
    stdout (snd (main aws fuel args environ initial)) =
      stdout s0
        ++ [Line ("account_id: " +:+ account);
            Line ("cluster name: " +:+ cluster args);
            Line ("service name: " +:+ svc_n);
            Line ("service url: " +:+ PyStr.lower protocol +:+ "://"
                    +:+ dns_name +:+ path)]
        ++ rest.
Proof.
  intros Hp Hc Hid Hsvc Hne Halb Hd Htg Hlb.
  unfold main, main_report.
  run_with Hp.
  run_with (run_get_aws_account_id _ _ _ _ (Hc _) Hid).
  run_print.
  unfold PyStr.truthy at 1. rewrite Hsvc, Hne, Halb. cbn [default id].
  run_print.
  run_with (run_get_svc_alb_tg_arn _ _ _ _ _ _ _ _ (Hc _) Hd).
  run_with (run_get_svc_alb_healthccheck_info _ _ _ _ _ _ _ _ _ _ _
              (Hc _) Htg Hlb).
  run_print. run_ret.
  (* the rest of the run only appends *)
  match goal with
  | |- context [snd (?rest_of_main ?s4)] =>
      assert (Hrest : monotone rest_of_main)
        by (monotone_auto;
            auto using monotone_get_svc_tasks_list, monotone_display_svc_tsk,
              monotone_main_dns);
      destruct (Hrest s4) as (o & _ & Ho & _)
  end.
  exists o. rewrite Ho. cbn [stdout service_url info_HealthCheckProtocol
    info_HealthCheckPath info_DNSName].
  now rewrite <- !app_assoc.
Qed.

Lemma main_alb_prints_service_url_witness :
  exists rest,
    stdout (snd (main Scenario.web 3 Scenario.web_args ∅ initial)) =
      [] ++ [Line "account_id: 123456789012"; Line "cluster name: prod";
             Line "service name: web";
             Line "service url: http://lb-123.example.com/healthz"]
         ++ rest.
Proof.
  apply (main_alb_prints_service_url Scenario.web 3 Scenario.web_args ∅
           (Some "dev") initial "123456789012" "web" "tg-arn" [] []
           "lb-arn" [] "HTTP" "/healthz" [] "lb-123.example.com" []);
    reflexivity.
Defined.

(** ** C10: no profile *)

(** C10. When [--profile] is absent (or empty) and the environment has no
    [AWS_PROFILE], [main] prints the "provide an AWS profile" message and
    exits with status 1, and the request log is empty: no client was
    created and no API call made. *)
Theorem main_without_profile_exits_1 aws fuel args (environ : gmap string string) :
  PyStr.truthy (profile args) = false ->
  environ !! "AWS_PROFILE" = None ->
  main aws fuel args environ initial =
    (Exit 1%Z,
     State [Line "Please provide an AWS profile or set AWS_PROFILE env"] []).
Proof.
  intros Hflag Henv.
  unfold main, main_report, resolve_profile.
  rewrite Hflag, Henv. reflexivity.
Qed.

Lemma main_without_profile_exits_1_witness :
  main Scenario.web 3
    {| profile := None; svc := Some "web"; dns := Some "Z123";
       cluster := "prod"; alb := true |}
    {["HOME" := "/home/ops"]} initial =
    (Exit 1%Z,
     State [Line "Please provide an AWS profile or set AWS_PROFILE env"] []).
Proof.
  apply main_without_profile_exits_1.
  - reflexivity.
  - vm_compute. reflexivity.
Defined.

(** * Further properties of the program *)

(** ** [list_svc] *)

(** X1. When the provider serves the cluster's pages one per [paginate]
    call, [list_svc] returns normally after printing the short name of
    every service of every page, in lexicographic order of the service
    identifiers, and it has requested each page exactly once. *)
Theorem list_svc_prints_every_service_sorted aws fuel cluster_n profile_name
    pages s :
  session_client aws "ecs" profile_name = None ->
  one_page_per_call aws cluster_n None pages ->
  length pages <= S fuel ->
  exists svc_list,
    list_svc aws fuel cluster_n profile_name s =
      (Ret tt,
       State
         (stdout s ++ map (fun svc => Line (after_first "/" svc)) svc_list)
         (requests s ++ [NewClient "ecs" profile_name]
            ++ page_requests cluster_n None pages)) /\
    Sorted string_le svc_list /\
    Permutation svc_list (concat (map serviceArns pages)) /\
    length (page_requests cluster_n None pages) = length pages.
Proof.
  intros Hc Hcalls Hfuel.
  exists (PyStr.sort (concat (map serviceArns pages))).
  split; [|split; [apply sort_sorted | split;
    [apply sort_perm | apply page_requests_length]]].
  rewrite (list_svc_one_page_per_call _ _ _ _ _ _ Hc Hcalls Hfuel).
  do 3 f_equal. apply map_ext. intros svc.
  now rewrite split1_last_after_first.
Qed.

Lemma list_svc_prints_every_service_sorted_witness :
  exists svc_list,
    list_svc Scenario.one_page_calls 1 "prod" (Some "dev") initial =
      (Ret tt,
       State
         (stdout initial ++ map (fun svc => Line (after_first "/" svc)) svc_list)
         (requests initial ++ [NewClient "ecs" (Some "dev")]
            ++ page_requests "prod" None
                 [Scenario.page_web; Scenario.page_api])) /\
    Sorted string_le svc_list /\
    Permutation svc_list
      (concat (map serviceArns [Scenario.page_web; Scenario.page_api])) /\
    length (page_requests "prod" None [Scenario.page_web; Scenario.page_api]) =
      length [Scenario.page_web; Scenario.page_api].
Proof.
  apply (list_svc_prints_every_service_sorted Scenario.one_page_calls 1 "prod"
           (Some "dev") [Scenario.page_web; Scenario.page_api] initial).
  - reflexivity.
  - cbn. repeat split.
  - cbn. lia.
Defined.

Lemma fold_first_pass_served aws cluster_n pages :
  (forall page, page ∈ pages ->
     Forall (service_served aws cluster_n) (serviceArns page)) ->
  forall vars,
    Forall (service_served aws cluster_n) (fst vars) ->
    Forall (service_served aws cluster_n)
      (fst (fold_left first_pass_body pages vars)).
Proof.
  induction pages as [|page pages IH]; intros Hpages vars Hvars;
    [exact Hvars|].
  cbn [fold_left]. apply IH.
  - intros later Hin. apply Hpages. now right.
  - cbn [first_pass_body fst]. apply Hpages. left.
Qed.

Lemma fold_next_pass_served aws cluster_n pages :
  (forall page, page ∈ pages ->
     Forall (service_served aws cluster_n) (serviceArns page)) ->
  forall vars,
    Forall (service_served aws cluster_n) (fst vars) ->
    Forall (service_served aws cluster_n)
      (fst (fold_left next_pass_body pages vars)).
Proof.
  induction pages as [|page pages IH]; intros Hpages vars Hvars;
    [exact Hvars|].
  cbn [fold_left]. apply IH.
  - intros later Hin. apply Hpages. now right.
  - cbn [next_pass_body fst]. apply Forall_app. split; [exact Hvars|].
    apply Hpages. left.
Qed.

Lemma pages_served aws cluster_n start page :
  page ∈ fst (list_services_pages aws cluster_n start) ->
  Forall (service_served aws cluster_n) (serviceArns page).
Proof.
  intros Hpage. apply Forall_forall. intros svc Hsvc.
  now exists start, page.
Qed.

(** The loop of [list_svc] prints nothing and never exits; what it
    collects are services the provider serves, and an error it ends in
    is one the provider's listing ends in. *)
Lemma list_svc_while_outcome aws fuel cluster_n :
  forall vars s,
    Forall (service_served aws cluster_n) (fst vars) ->
    stdout (snd (list_svc_while aws fuel cluster_n vars s)) = stdout s /\
    match fst (list_svc_while aws fuel cluster_n vars s) with
    | Ret vars' => Forall (service_served aws cluster_n) (fst vars')
    | Exit _ => False
    | Raise e => listing_error aws cluster_n e
    | Diverge => True
    end.
Proof.
  induction fuel as [|fuel IH]; intros vars s Hvars; cbn [list_svc_while].
  - destruct (PyStr.truthy (snd vars)); split; try reflexivity; auto.
  - destruct (PyStr.truthy (snd vars)); [|split; [reflexivity | exact Hvars]].
    unfold bind. rewrite run_for_pages_pure.
    destruct (snd (list_services_pages aws cluster_n (snd vars))) as [e|]
      eqn:Herr.
    + split; [reflexivity|]. now exists (snd vars).
    + match goal with
      | |- context [list_svc_while _ _ _ ?vars1 ?s1] =>
          destruct (IH vars1 s1) as [Hout Hend]
      end.
      { apply fold_next_pass_served; [|exact Hvars].
        intros page. apply pages_served. }
      split; [now rewrite Hout | exact Hend].
Qed.

(** X2. Whatever the provider answers to the listing, once the client is
    created [list_svc] neither raises nor exits.  It returns after
    printing either the short names of a sorted list of services that
    the provider serves and nothing else, or exactly the two lines of its
    diagnostic for an error the provider's listing ended in and nothing
    else: never a partial list followed by the diagnostic.  The one other
    way a run of the model ends is its loop outliving the budget, with
    nothing printed. *)
Theorem list_svc_never_raises aws fuel cluster_n profile_name s :
  session_client aws "ecs" profile_name = None ->
  let run := list_svc aws fuel cluster_n profile_name s in
  (fst run = Ret tt /\
   ((exists svc_list,
       Sorted string_le svc_list /\
       Forall (service_served aws cluster_n) svc_list /\
       stdout (snd run) =
         stdout s ++ map (fun svc => Line (after_first "/" svc)) svc_list) \/
    (exists error,
       listing_error aws cluster_n error /\
       stdout (snd run) =
         stdout s
           ++ [Line "Cannot find ECS services from the provided ECS cluster";
               Line (str_exn error)]))) \/
  (fst run = Diverge /\ stdout (snd run) = stdout s).
Proof.
  intros Hc run. subst run. unfold list_svc.
  run_with (run_get_aws_client _ _ _ _ Hc).
  unfold try_except.
  destruct (list_services_pages aws cluster_n None) as [pages err] eqn:Hfirst_call.
  cbn [fst snd].
  set (s1 := State (stdout s) (requests s ++ [NewClient "ecs" profile_name])).
  pose proof (run_for_pages_pure first_pass_body
                (ListServicesPage cluster_n None) 0 pages err ([], None) s1)
    as Hfirst.
  destruct err as [e|].
  - rewrite (run_bind_raise _ _ _ _ _ Hfirst). cbn [any_exception fst snd].
    left. split; [reflexivity|]. right. exists e. split.
    + exists None. now rewrite Hfirst_call.
    + cbn. now rewrite <- app_assoc.
  - rewrite (run_bind _ _ _ _ _ Hfirst). cbv beta.
    match goal with
    | |- context [bind (list_svc_while _ _ _ ?vars1) _ ?s2] =>
        destruct (list_svc_while_outcome aws fuel cluster_n vars1 s2)
          as [Hout Hend];
        [|destruct (list_svc_while aws fuel cluster_n vars1 s2)
            as [[vars'|code|e|] s'] eqn:Hrun]
    end.
    + apply fold_first_pass_served; [|constructor].
      intros page Hpage. apply (pages_served aws cluster_n None).
      now rewrite Hfirst_call.
    + cbn [fst snd stdout] in Hout, Hend.
      left. rewrite (run_bind _ _ _ _ _ Hrun), run_for_each_print.
      split; [reflexivity|]. left. exists (PyStr.sort (fst vars')).
      split; [apply sort_sorted|]. split.
      * apply Forall_forall. intros svc Hsvc.
        rewrite sort_perm in Hsvc.
        now apply (proj1 (Forall_forall _ _) Hend).
      * cbn [snd stdout]. rewrite Hout. f_equal.
        apply map_ext. intros svc. now rewrite split1_last_after_first.
    + cbn [fst] in Hend. contradiction.
    + cbn [fst snd stdout] in Hout, Hend.
      left. rewrite (run_bind_raise _ _ _ _ _ Hrun). cbn [any_exception].
      split; [reflexivity|]. right. exists e. split; [exact Hend|].
      cbn. rewrite Hout. now rewrite <- app_assoc.
    + cbn [fst snd stdout] in Hout.
      right. rewrite (run_bind_diverge _ _ _ _ Hrun). now split.
Qed.

Lemma list_svc_never_raises_witness :
  let run := list_svc Scenario.no_cluster 2 "prod" (Some "dev") initial in
  (fst run = Ret tt /\
   ((exists svc_list,
       Sorted string_le svc_list /\
       Forall (service_served Scenario.no_cluster "prod") svc_list /\
       stdout (snd run) =
         stdout initial ++ map (fun svc => Line (after_first "/" svc)) svc_list) \/
    (exists error,
       listing_error Scenario.no_cluster "prod" error /\
       stdout (snd run) =
         stdout initial
           ++ [Line "Cannot find ECS services from the provided ECS cluster";
               Line (str_exn error)]))) \/
  (fst run = Diverge /\ stdout (snd run) = stdout initial).
Proof.
  apply (list_svc_never_raises Scenario.no_cluster 2 "prod" (Some "dev")
           initial).
  reflexivity.
Defined.

(** X3. The client of [list_svc] is created outside its [try]: when the
    client cannot be created, the error propagates to the caller, no
    diagnostic is printed and no page is requested. *)
Theorem list_svc_client_error_propagates aws fuel cluster_n profile_name e s :
  session_client aws "ecs" profile_name = Some e ->
  list_svc aws fuel cluster_n profile_name s =
    (Raise e,
     State (stdout s) (requests s ++ [NewClient "ecs" profile_name])).
Proof.
  intros Hc. unfold list_svc. apply run_bind_raise.
  unfold get_aws_client. rewrite run_bind_log, Hc. reflexivity.
Qed.

Lemma list_svc_client_error_propagates_witness :
  list_svc Scenario.no_credentials 2 "prod" (Some "dev") initial =
    (Raise (ProviderError "ProfileNotFound"),
     State (stdout initial) (requests initial ++ [NewClient "ecs" (Some "dev")])).
Proof.
  apply (list_svc_client_error_propagates Scenario.no_credentials 2 "prod"
           (Some "dev") (ProviderError "ProfileNotFound") initial).
  reflexivity.
Defined.

(** ** [get_dns_records_100x] *)

(** X4. When the listing of the zone fails, [get_dns_records_100x] prints
    "An error occurred getting source zone records:" and the error's
    text, and raises the same error again: unlike [list_svc], it does not
    swallow the failure. *)
Theorem get_dns_records_100x_reraises aws zone_id next_token profile_name
    pages e s :
  session_client aws "route53" profile_name = None ->
  list_record_sets_pages aws zone_id next_token = (pages, Some e) ->
  get_dns_records_100x aws zone_id next_token profile_name s =
    (Raise e,
     State
       (stdout s
          ++ [Line "An error occurred getting source zone records:";
              Line (str_exn e)])
       (requests s ++ [NewClient "route53" profile_name]
          ++ map (ListRecordSetsPage zone_id next_token)
               (seq 0 (length pages + 1)))).
Proof.
  intros Hc Hpages. unfold get_dns_records_100x.
  run_with (run_get_aws_client _ _ _ _ Hc).
  unfold try_except. rewrite Hpages. cbn [fst snd].
  erewrite run_bind_raise; [|rewrite run_for_pages_pure; reflexivity].
  cbn [any_exception stdout requests].
  rewrite run_bind_print, run_bind_print. unfold raise.
  cbn [stdout requests]. now rewrite <- !app_assoc.
Qed.

Lemma get_dns_records_100x_reraises_witness :
  get_dns_records_100x Scenario.zone_denied "Z123" None (Some "dev") initial =
    (Raise (ProviderError "AccessDenied"),
     State
       (stdout initial
          ++ [Line "An error occurred getting source zone records:";
              Line (str_exn (ProviderError "AccessDenied"))])
       (requests initial ++ [NewClient "route53" (Some "dev")]
          ++ map (ListRecordSetsPage "Z123" None)
               (seq 0 (length (@nil record_sets_page) + 1)))).
Proof.
  apply (get_dns_records_100x_reraises Scenario.zone_denied "Z123" None
           (Some "dev") [] (ProviderError "AccessDenied") initial);
    reflexivity.
Defined.

(** An entry of the map was already there or comes from an alias ["A"]
    record. *)
Lemma fold_add_record_sound records :
  forall (dnsMap0 : gmap string string) key value,
    fold_left add_record records dnsMap0 !! key = Some value ->
    dnsMap0 !! key = Some value \/
    exists record target,
      record ∈ records /\
      Type_ record = "A" /\
      AliasTarget record = Some target /\
      key = PyStr.drop_last (alias_DNSName target) /\
      value = PyStr.drop_last (Name record).
Proof.
  induction records as [|record records IH]; intros dnsMap0 key value Hlookup;
    [now left|].
  cbn [fold_left] in Hlookup.
  destruct (IH _ _ _ Hlookup) as [Hhere | (r & t & Hin & Hrest)].
  - unfold add_record in Hhere.
    destruct (String.eqb (Type_ record) "A") eqn:Htype; [|now left].
    destruct (AliasTarget record) as [target|] eqn:Htarget; [|now left].
    destruct (decide (PyStr.drop_last (alias_DNSName target) = key)) as [Hkey|Hkey].
    + subst key. rewrite lookup_insert_eq in Hhere. injection Hhere as <-.
      right. exists record, target. apply String.eqb_eq in Htype.
      repeat split; [left | assumption..].
    + rewrite lookup_insert_ne in Hhere by exact Hkey. now left.
  - right. exists r, t. split; [now right | exact Hrest].
Qed.

(** X5. Every entry of the map [get_dns_records_100x] returns comes from
    a record of type ["A"] with an alias target among the fetched
    records: its key is the alias target's DNS name and its value the
    record's name, each without its last character.  Records of another
    type or without an alias target add nothing. *)
Theorem get_dns_records_100x_only_alias_records aws zone_id next_token
    profile_name pages s :
  session_client aws "route53" profile_name = None ->
  list_record_sets_pages aws zone_id next_token = (pages, None) ->
  exists more s',
    get_dns_records_100x aws zone_id next_token profile_name s =
      (Ret more, s') /\
    forall key value,
      dnsMap more !! key = Some value ->
      exists record target,
        record ∈ concat (map ResourceRecordSets pages) /\
        Type_ record = "A" /\
        AliasTarget record = Some target /\
        key = PyStr.drop_last (alias_DNSName target) /\
        value = PyStr.drop_last (Name record).
Proof.
  intros Hc Hpages. eexists. eexists. split.
  - apply (run_get_dns_records_100x _ _ _ _ _ _ Hc Hpages).
  - cbn [dnsMap]. intros key value Hlookup.
    destruct (fold_add_record_sound _ _ _ _ Hlookup) as [Hempty | Hrecord].
    + now rewrite lookup_empty in Hempty.
    + exact Hrecord.
Qed.

Lemma get_dns_records_100x_only_alias_records_witness :
  exists more s',
    get_dns_records_100x Scenario.two_page_zone "Z123" None (Some "dev")
      initial = (Ret more, s') /\
    forall key value,
      dnsMap more !! key = Some value ->
      exists record target,
        record ∈ concat (map ResourceRecordSets [Scenario.zone_page_1]) /\
        Type_ record = "A" /\
        AliasTarget record = Some target /\
        key = PyStr.drop_last (alias_DNSName target) /\
        value = PyStr.drop_last (Name record).
Proof.
  apply (get_dns_records_100x_only_alias_records Scenario.two_page_zone "Z123"
           None (Some "dev") [Scenario.zone_page_1] initial);
    reflexivity.
Defined.

(** ** The DNS correlation of [main] over a zone served page by page *)

Lemma run_get_dns_records_100x_page aws zone start profile_name page s :
  session_client aws "route53" profile_name = None ->
  list_record_sets_pages aws zone start = ([page], None) ->
  get_dns_records_100x aws zone start profile_name s =
    (Ret (DnsPage (NextRecordName page) (zone_map (ResourceRecordSets page))),
     State (stdout s)
       (requests s
          ++ [NewClient "route53" profile_name; ListRecordSetsPage zone start 0])).
Proof.
  intros Hc Hpage.
  rewrite (run_get_dns_records_100x _ _ _ _ _ _ Hc Hpage).
  cbn [map concat length seq]. unfold last_cursor. cbn [last].
  now rewrite app_nil_r.
Qed.

(** The loop on pages that all miss: it fetches every further page and
    prints nothing. *)
Lemma dns_while_misses aws zone profile_name info :
  session_client aws "route53" profile_name = None ->
  forall rest cur start fuel s,
    zone_page_per_call aws zone start (cur :: rest) ->
    Forall (misses info) (removelast (cur :: rest)) ->
    length rest <= fuel ->
    dns_while aws fuel zone profile_name (Some info)
      (DnsPage (NextRecordName cur) (zone_map (ResourceRecordSets cur))) s =
      (Ret tt,
       State (stdout s)
         (requests s ++ zone_requests profile_name zone (NextRecordName cur) rest)).
Proof.
  intros Hc. induction rest as [|next rest IH];
    intros cur start fuel s [_ Htail] Hmiss Hfuel.
  - destruct fuel; cbn [dns_while page_nextToken]; rewrite Htail;
      cbn [PyStr.truthy zone_requests]; rewrite app_nil_r; now destruct s.
  - destruct Htail as [Hcursor Hrest].
    destruct fuel as [|fuel]; [cbn in Hfuel; lia|].
    change (removelast (cur :: next :: rest))
      with (cur :: removelast (next :: rest)) in Hmiss.
    inversion Hmiss as [|? ? Hcur Hothers]; subst.
    cbn [dns_while page_nextToken dnsMap]. rewrite Hcursor.
    cbn [subscript]. rewrite run_bind_ret. unfold misses in Hcur. rewrite Hcur.
    run_with (run_get_dns_records_100x_page _ _ _ _ _ _ Hc (proj1 Hrest)).
    rewrite (IH next (NextRecordName cur) fuel _ Hrest Hothers)
      by (cbn in Hfuel; lia).
    cbn [stdout requests zone_requests]. now rewrite <- app_assoc.
Qed.

(** X6. Over a zone served one page per call, when no page that the
    correlation looks at (a sole page, or every page but the last) maps
    the load balancer's DNS name, the DNS block of [main] fetches every
    page once, prints nothing and returns normally: "not found" is
    silent. *)
Theorem main_dns_not_found_is_silent aws fuel args profile_name info pages s :
  PyStr.truthy (dns args) = true ->
  PyStr.truthy (svc args) = true ->
  session_client aws "route53" profile_name = None ->
  zone_page_per_call aws (default "" (dns args)) None pages ->
  Forall (misses info) (searched_pages pages) ->
  length pages <= S fuel ->
  main_dns aws fuel args profile_name (Some info) s =
    (Ret tt,
     State (stdout s)
       (requests s
          ++ zone_requests profile_name (default "" (dns args)) None pages)).
Proof.
  intros Hdns Hsvc Hc Hzone Hmiss Hfuel.
  destruct pages as [|page rest]; [contradiction|].
  unfold main_dns. rewrite Hdns, Hsvc. cbn [andb].
  run_with (run_get_dns_records_100x_page _ _ _ _ _ _ Hc (proj1 Hzone)).
  cbn [page_nextToken dnsMap].
  destruct rest as [|next rest].
  - destruct Hzone as [_ Hlast]. rewrite Hlast. cbn [subscript].
    inversion Hmiss as [|? ? Hpage _]; subst. unfold misses in Hpage.
    rewrite bind_assoc, run_bind_ret, Hpage, run_bind_ret.
    destruct fuel; reflexivity.
  - pose proof Hzone as [_ [Hcursor _]].
    destruct (NextRecordName page) as [cursor|] eqn:Htoken; [|discriminate].
    rewrite run_bind_ret, <- Htoken.
    rewrite (dns_while_misses aws _ profile_name info Hc (next :: rest) page
               None fuel _ Hzone Hmiss) by (cbn in Hfuel |- *; lia).
    cbn [stdout requests zone_requests]. now rewrite <- app_assoc.
Qed.

Lemma main_dns_not_found_is_silent_witness :
  main_dns Scenario.two_page_zone 1 Scenario.web_args (Some "dev")
    (Some (AlbHealth "lb-arn" "HTTP" "/healthz" "lb-123.example.com")) initial =
    (Ret tt,
     State (stdout initial)
       (requests initial
          ++ zone_requests (Some "dev") (default "" (dns Scenario.web_args))
               None [Scenario.zone_page_1; Scenario.zone_page_2])).
Proof.
  apply (main_dns_not_found_is_silent Scenario.two_page_zone 1
           Scenario.web_args (Some "dev")
           (AlbHealth "lb-arn" "HTTP" "/healthz" "lb-123.example.com")
           [Scenario.zone_page_1; Scenario.zone_page_2] initial).
  - reflexivity.
  - reflexivity.
  - reflexivity.
  - cbn. repeat split.
  - constructor; [vm_compute; reflexivity | constructor].
  - cbn. lia.
Defined.

Lemma zone_page_cursor aws zone start cur rest :
  rest <> [] ->
  zone_page_per_call aws zone start (cur :: rest) ->
  PyStr.truthy (NextRecordName cur) = true.
Proof.
  intros Hrest [_ Htail]. destruct rest; [contradiction | apply Htail].
Qed.

(** The loop on pages that miss up to a page that carries a cursor and
    hits: it fetches up to that page, prints the URL and stops. *)
Lemma dns_while_hits aws zone profile_name info page after record_name :
  session_client aws "route53" profile_name = None ->
  after <> [] ->
  zone_map (ResourceRecordSets page) !! info_DNSName info = Some record_name ->
  forall before cur start fuel s,
    zone_page_per_call aws zone start (cur :: before ++ page :: after) ->
    misses info cur ->
    Forall (misses info) before ->
    length before + 2 <= fuel ->
    dns_while aws fuel zone profile_name (Some info)
      (DnsPage (NextRecordName cur) (zone_map (ResourceRecordSets cur))) s =
      (Ret tt,
       State (stdout s ++ [Line (r53_url info record_name)])
         (requests s
            ++ zone_requests profile_name zone (NextRecordName cur)
                 (before ++ [page]))).
Proof.
  intros Hc Hafter Hhit.
  induction before as [|next before IH];
    intros cur start fuel s [_ [Hcursor Hrest]] Hcur Hmiss Hfuel;
    (destruct fuel as [|fuel]; [cbn in Hfuel; lia|]);
    cbn [dns_while page_nextToken dnsMap]; rewrite Hcursor;
    cbn [subscript]; rewrite run_bind_ret; unfold misses in Hcur; rewrite Hcur.
  - cbn [app] in Hrest |- *.
    run_with (run_get_dns_records_100x_page _ _ _ _ _ _ Hc (proj1 Hrest)).
    destruct fuel as [|fuel]; [cbn in Hfuel; lia|].
    destruct Hrest as [_ Hpage].
    destruct after as [|following after]; [contradiction|].
    rewrite (dns_while_match_stops aws fuel zone profile_name info
               (DnsPage (NextRecordName page)
                  (zone_map (ResourceRecordSets page)))
               record_name _ (proj1 Hpage) Hhit).
    reflexivity.
  - cbn [app] in Hrest |- *.
    run_with (run_get_dns_records_100x_page _ _ _ _ _ _ Hc (proj1 Hrest)).
    inversion Hmiss as [|? ? Hnext Hothers]; subst.
    rewrite (IH next (NextRecordName cur) fuel _ Hrest Hnext Hothers)
      by (cbn in Hfuel; lia).
    cbn [stdout requests zone_requests]. now rewrite <- app_assoc.
Qed.

(** X7. Over a zone served one page per call, let a page map the load
    balancer's DNS name to a record name, no earlier page map it, and the
    page be a sole page or be followed by another.  Then the DNS block of
    [main] prints the one line "R53 URL: <protocol lower-cased>://<record
    name><path>", and has requested the pages up to that one and none
    after it. *)
Theorem main_dns_first_match_stops aws fuel args profile_name info before page
    after record_name s :
  PyStr.truthy (dns args) = true ->
  PyStr.truthy (svc args) = true ->
  session_client aws "route53" profile_name = None ->
  zone_page_per_call aws (default "" (dns args)) None (before ++ page :: after) ->
  Forall (misses info) before ->
  zone_map (ResourceRecordSets page) !! info_DNSName info = Some record_name ->
  after <> [] \/ before = [] ->
  length before + 1 <= fuel ->
  main_dns aws fuel args profile_name (Some info) s =
    (Ret tt,
     State
       (stdout s
          ++ [Line ("R53 URL: " +:+ PyStr.lower (info_HealthCheckProtocol info)
                      +:+ "://" +:+ record_name +:+ info_HealthCheckPath info)])
       (requests s
          ++ zone_requests profile_name (default "" (dns args)) None
               (before ++ [page]))).
Proof.
  intros Hdns Hsvc Hc Hzone Hmiss Hhit Hsearched Hfuel.
  fold (r53_url info record_name).
  unfold main_dns. rewrite Hdns, Hsvc. cbn [andb].
  destruct before as [|first before]; cbn [app] in Hzone |- *.
  - run_with (run_get_dns_records_100x_page _ _ _ _ _ _ Hc (proj1 Hzone)).
    cbn [page_nextToken dnsMap]. destruct Hzone as [_ Hpage].
    destruct after as [|following after].
    + rewrite Hpage. cbn [subscript].
      rewrite bind_assoc, run_bind_ret, Hhit, run_bind_print.
      destruct fuel; reflexivity.
    + destruct Hpage as [Hcursor _].
      destruct (NextRecordName page) as [cursor|] eqn:Htoken; [|discriminate].
      rewrite run_bind_ret.
      destruct fuel as [|fuel]; [cbn in Hfuel; lia|].
      now rewrite (dns_while_match_stops aws fuel _ profile_name info
                     (DnsPage (Some cursor)
                        (zone_map (ResourceRecordSets page)))
                     record_name _ Hcursor Hhit).
  - destruct Hsearched as [Hafter|]; [|discriminate].
    inversion Hmiss as [|? ? Hfirst Hothers]; subst.
    run_with (run_get_dns_records_100x_page _ _ _ _ _ _ Hc (proj1 Hzone)).
    cbn [page_nextToken dnsMap].
    assert (Hcursor : PyStr.truthy (NextRecordName first) = true)
      by (eapply zone_page_cursor; [|exact Hzone]; now destruct before).
    destruct (NextRecordName first) as [cursor|] eqn:Htoken; [|discriminate].
    rewrite run_bind_ret, <- Htoken.
    rewrite (dns_while_hits aws _ profile_name info page after record_name
               Hc Hafter Hhit before first None fuel _ Hzone Hfirst Hothers)
      by (cbn in Hfuel |- *; lia).
    cbn [stdout requests zone_requests]. now rewrite <- app_assoc.
Qed.

Lemma main_dns_first_match_stops_witness :
  main_dns Scenario.two_page_zone 1 Scenario.web_args (Some "dev")
    (Some (AlbHealth "lb-arn" "HTTP" "/healthz" "x.example.com")) initial =
    (Ret tt,
     State
       (stdout initial ++ [Line "R53 URL: http://my-record.example.com/healthz"])
       (requests initial
          ++ zone_requests (Some "dev") (default "" (dns Scenario.web_args))
               None ([] ++ [Scenario.zone_page_1]))).
Proof.
  apply (main_dns_first_match_stops Scenario.two_page_zone 1 Scenario.web_args
           (Some "dev") (AlbHealth "lb-arn" "HTTP" "/healthz" "x.example.com")
           [] Scenario.zone_page_1 [Scenario.zone_page_2]
           "my-record.example.com" initial).
  - reflexivity.
  - reflexivity.
  - reflexivity.
  - cbn. repeat split.
  - constructor.
  - vm_compute. reflexivity.
  - left. discriminate.
  - cbn. lia.
Defined.

(** ** [display_svc_tsk] *)

Lemma run_add_task_rows_full aws task_list profile_name tasks definitions :
  session_client aws "ecs" profile_name = None ->
  (forall task, task ∈ tasks ->
     describe_task_definition aws (taskDefinitionArn task) =
       inr (definitions (taskDefinitionArn task))) ->
  forall rows index s,
    index + length tasks <= length task_list ->
    exists s',
      for_each tasks (add_task_row aws task_list profile_name) (rows, index) s =
        (Ret (rows ++ task_rows (drop index task_list) tasks definitions,
              index + length tasks), s') /\
      stdout s' = stdout s.
Proof.
  intros Hc. induction tasks as [|task tasks IH]; intros Hdef rows index s Hlen.
  - exists s. unfold task_rows. rewrite zip_with_nil_r, app_nil_r, Nat.add_0_r.
    auto.
  - destruct (lookup_lt_is_Some_2 task_list index) as [task_id Hid];
      [cbn in Hlen; lia|].
    cbn [for_each]. unfold add_task_row at 1.
    run_with (run_get_tsk_def_img_tag _ _ _ _ _ Hc (Hdef task (list_elem_of_here _ _))).
    unfold index_at. cbn [fst snd]. rewrite Hid. run_ret. run_ret.
    match goal with
    | |- context [for_each _ _ (?rows1, _) ?s1] =>
        destruct (IH (fun t Ht => Hdef t (list_elem_of_further _ _ _ Ht))
                    rows1 (S index) s1) as (s' & Hrun & Hout);
          [cbn in Hlen; lia|]
    end.
    exists s'. split; [|exact Hout].
    rewrite Hrun, <- app_assoc, (drop_S _ _ _ Hid).
    unfold task_rows. cbn [zip_with app length].
    now rewrite Nat.add_succ_r, split1_last_after_first.
Qed.

(** X8. When the provider describes at most as many tasks as were asked
    for and answers for each task definition, [display_svc_tsk] prints
    one table and returns: row [n] pairs the [n]-th task identifier it
    was given with the [n]-th described task (by position, whatever task
    the description is of), and carries the text after the first ["/"] of
    that task's definition identifier, its last status, and in the fourth
    column what [get_tsk_def_img_tag] returns for its definition: the
    text after the first colon of the last container's image ([None]
    without containers). *)
Theorem display_svc_tsk_rows_by_position aws task_list cluster profile_name
    tasks definitions s :
  session_client aws "ecs" profile_name = None ->
  describe_tasks aws cluster task_list = inr tasks ->
  (forall task, task ∈ tasks ->
     describe_task_definition aws (taskDefinitionArn task) =
       inr (definitions (taskDefinitionArn task))) ->
  length tasks <= length task_list ->
  exists s',
    display_svc_tsk aws task_list cluster profile_name s = (Ret tt, s') /\
    stdout s' = stdout s ++ [Table (task_rows task_list tasks definitions)].
Proof.
  intros Hc Hd Hdef Hlen. unfold display_svc_tsk.
  run_with (run_get_aws_client _ _ _ _ Hc). run_log.
  rewrite Hd. cbn [answer]. run_ret.
  match goal with
  | |- context [bind (for_each _ _ _) _ ?s1] =>
      destruct (run_add_task_rows_full aws task_list profile_name tasks
                  definitions Hc Hdef [] 0 s1 Hlen) as (s' & Hrun & Hout)
  end.
  run_with Hrun. cbn [fst app drop].
  eexists. split; [reflexivity|].
  cbn [stdout]. now rewrite Hout.
Qed.

Lemma display_svc_tsk_rows_by_position_witness :
  exists s',
    display_svc_tsk Scenario.web ["a1b2"] "prod" (Some "dev") initial =
      (Ret tt, s') /\
    stdout s' =
      stdout initial
        ++ [Table
              (task_rows ["a1b2"]
                 [TaskDescription
                    "arn:aws:ecs:eu-west-1:123456789012:task-definition/web:7"
                    "RUNNING"]
                 (fun _ => [ContainerDefinition "repo:v1";
                            ContainerDefinition "repo:v2"]))].
Proof.
  apply (display_svc_tsk_rows_by_position Scenario.web ["a1b2"] "prod"
           (Some "dev")
           [TaskDescription
              "arn:aws:ecs:eu-west-1:123456789012:task-definition/web:7"
              "RUNNING"]
           (fun _ => [ContainerDefinition "repo:v1";
                      ContainerDefinition "repo:v2"])
           initial).
  - reflexivity.
  - reflexivity.
  - intros task _. reflexivity.
  - cbn. lia.
Defined.

Lemma run_add_task_rows_out_of_range aws task_list profile_name tasks :
  session_client aws "ecs" profile_name = None ->
  (forall task, task ∈ tasks ->
     exists containerDefinitions,
       describe_task_definition aws (taskDefinitionArn task) =
         inr containerDefinitions) ->
  forall rows index s,
    index <= length task_list ->
    length task_list < index + length tasks ->
    exists s',
      for_each tasks (add_task_row aws task_list profile_name) (rows, index) s =
        (Raise IndexError, s') /\
      stdout s' = stdout s.
Proof.
  intros Hc. induction tasks as [|task tasks IH];
    intros Hdef rows index s Hindex Hlen; [cbn in Hlen; lia|].
  destruct (Hdef task) as [cds Hcds]; [left|].
  cbn [for_each]. unfold add_task_row at 1.
  run_with (run_get_tsk_def_img_tag _ _ _ _ _ Hc Hcds).
  unfold index_at. cbn [fst snd].
  destruct (task_list !! index) as [task_id|] eqn:Hid.
  - apply lookup_lt_Some in Hid. run_ret. run_ret.
    match goal with
    | |- context [for_each _ _ (?rows1, _) ?s1] =>
        destruct (IH (fun t Ht => Hdef t (list_elem_of_further _ _ _ Ht))
                    rows1 (S index) s1) as (s' & Hrun & Hout);
          [lia | cbn in Hlen; lia |]
    end.
    exists s'. split; [exact Hrun | exact Hout].
  - eexists. split.
    + rewrite bind_assoc. apply run_bind_raise. reflexivity.
    + reflexivity.
Qed.

(** X9. When the provider describes more tasks than task identifiers were
    given, [display_svc_tsk] runs off the end of [task_list]: it raises
    [IndexError], which nothing catches, and no table is printed. *)
Theorem display_svc_tsk_more_tasks_than_ids aws task_list cluster profile_name
    tasks s :
  session_client aws "ecs" profile_name = None ->
  describe_tasks aws cluster task_list = inr tasks ->
  (forall task, task ∈ tasks ->
     exists containerDefinitions,
       describe_task_definition aws (taskDefinitionArn task) =
         inr containerDefinitions) ->
  length task_list < length tasks ->
  exists s',
    display_svc_tsk aws task_list cluster profile_name s =
      (Raise IndexError, s') /\
    stdout s' = stdout s.
Proof.
  intros Hc Hd Hdef Hlen. unfold display_svc_tsk.
  run_with (run_get_aws_client _ _ _ _ Hc). run_log.
  rewrite Hd. cbn [answer]. run_ret.
  match goal with
  | |- context [bind (for_each _ _ _) _ ?s1] =>
      destruct (run_add_task_rows_out_of_range aws task_list profile_name
                  tasks Hc Hdef [] 0 s1) as (s' & Hrun & Hout);
        [lia | lia |]
  end.
  exists s'. split; [now apply run_bind_raise | exact Hout].
Qed.

Lemma display_svc_tsk_more_tasks_than_ids_witness :
  exists s',
    display_svc_tsk Scenario.two_tasks_described ["a1b2"] "prod" (Some "dev")
      initial = (Raise IndexError, s') /\
    stdout s' = stdout initial.
Proof.
  apply (display_svc_tsk_more_tasks_than_ids Scenario.two_tasks_described
           ["a1b2"] "prod" (Some "dev")
           [TaskDescription
              "arn:aws:ecs:eu-west-1:123456789012:task-definition/web:7"
              "RUNNING";
            TaskDescription
              "arn:aws:ecs:eu-west-1:123456789012:task-definition/web:6"
              "STOPPED"]
           initial).
  - reflexivity.
  - reflexivity.
  - intros task _. eexists. reflexivity.
  - cbn. lia.
Defined.

Lemma run_get_tsk_def_img_tag_error aws tsk profile_name e s :
  session_client aws "ecs" profile_name = None ->
  describe_task_definition aws tsk = inl e ->
  get_tsk_def_img_tag aws tsk profile_name s =
    (Raise e,
     State (stdout s)
       (requests s ++ [NewClient "ecs" profile_name]
          ++ [DescribeTaskDefinition tsk])).
Proof.
  intros Hc Hd. unfold get_tsk_def_img_tag.
  run_with (run_get_aws_client _ _ _ _ Hc). run_log.
  rewrite Hd. cbn. now rewrite <- app_assoc.
Qed.

Lemma run_add_task_rows_definition_error aws task_list profile_name task after
    e :
  session_client aws "ecs" profile_name = None ->
  describe_task_definition aws (taskDefinitionArn task) = inl e ->
  forall before,
    (forall earlier, earlier ∈ before ->
       exists containerDefinitions,
         describe_task_definition aws (taskDefinitionArn earlier) =
           inr containerDefinitions) ->
    forall rows index s,
      index + length before <= length task_list ->
      exists s',
        for_each (before ++ task :: after)
          (add_task_row aws task_list profile_name) (rows, index) s =
          (Raise e, s') /\
        stdout s' = stdout s.
Proof.
  intros Hc He. induction before as [|earlier before IH];
    intros Hdef rows index s Hlen; cbn [app for_each];
    unfold add_task_row at 1.
  - eexists. split.
    + rewrite bind_assoc. apply run_bind_raise.
      apply (run_get_tsk_def_img_tag_error _ _ _ _ _ Hc He).
    + reflexivity.
  - destruct (Hdef earlier) as [cds Hcds]; [left|].
    destruct (lookup_lt_is_Some_2 task_list index) as [task_id Hid];
      [cbn in Hlen; lia|].
    run_with (run_get_tsk_def_img_tag _ _ _ _ _ Hc Hcds).
    unfold index_at. cbn [fst snd]. rewrite Hid. run_ret. run_ret.
    match goal with
    | |- context [for_each _ _ (?rows1, _) ?s1] =>
        destruct (IH (fun t Ht => Hdef t (list_elem_of_further _ _ _ Ht))
                    rows1 (S index) s1) as (s' & Hrun & Hout);
          [cbn in Hlen; lia|]
    end.
    exists s'. split; [exact Hrun | exact Hout].
Qed.

(** X10. When the definition of one of the described tasks cannot be
    fetched, [display_svc_tsk] raises the provider's error and prints no
    table: the rows already built for the earlier tasks are lost. *)
Theorem display_svc_tsk_definition_error aws task_list cluster profile_name
    before task after e s :
  session_client aws "ecs" profile_name = None ->
  describe_tasks aws cluster task_list = inr (before ++ task :: after) ->
  (forall earlier, earlier ∈ before ->
     exists containerDefinitions,
       describe_task_definition aws (taskDefinitionArn earlier) =
         inr containerDefinitions) ->
  describe_task_definition aws (taskDefinitionArn task) = inl e ->
  length before <= length task_list ->
  exists s',
    display_svc_tsk aws task_list cluster profile_name s = (Raise e, s') /\
    stdout s' = stdout s.
Proof.
  intros Hc Hd Hdef He Hlen. unfold display_svc_tsk.
  run_with (run_get_aws_client _ _ _ _ Hc). run_log.
  rewrite Hd. cbn [answer]. run_ret.
  match goal with
  | |- context [bind (for_each _ _ _) _ ?s1] =>
      destruct (run_add_task_rows_definition_error aws task_list profile_name
                  task after e Hc He before Hdef [] 0 s1 Hlen)
        as (s' & Hrun & Hout)
  end.
  exists s'. split; [now apply run_bind_raise | exact Hout].
Qed.

Lemma display_svc_tsk_definition_error_witness :
  exists s',
    display_svc_tsk Scenario.definition_gone ["a1b2"] "prod" (Some "dev")
      initial = (Raise (ProviderError "ClientException"), s') /\
    stdout s' = stdout initial.
Proof.
  apply (display_svc_tsk_definition_error Scenario.definition_gone ["a1b2"]
           "prod" (Some "dev") []
           (TaskDescription
              "arn:aws:ecs:eu-west-1:123456789012:task-definition/web:7"
              "RUNNING")
           [] (ProviderError "ClientException") initial).
  - reflexivity.
  - reflexivity.
  - intros earlier Hin. inversion Hin.
  - reflexivity.
  - cbn. lia.
Defined.

(** ** The load-balancer lookup *)

(** X11. When the target group response is empty, or its first target
    group names no load balancer, [get_svc_alb_healthccheck_info] raises
    [IndexError], which nothing catches (no diagnostic, unlike a service
    without load balancer), and it never asks for a load balancer. *)
Theorem get_svc_alb_healthccheck_info_no_balancer aws tg_arn profile_name
    TargetGroups s :
  session_client aws "elbv2" profile_name = None ->
  describe_target_groups aws [tg_arn] = inr TargetGroups ->
  no_balancer TargetGroups = true ->
  get_svc_alb_healthccheck_info aws tg_arn profile_name s =
    (Raise IndexError,
     State (stdout s)
       (requests s
          ++ [NewClient "elbv2" profile_name; DescribeTargetGroups [tg_arn]])).
Proof.
  intros Hc Htg Hno. unfold get_svc_alb_healthccheck_info.
  run_with (run_get_aws_client _ _ _ _ Hc). run_log.
  rewrite Htg. cbn [answer]. run_ret. rewrite <- app_assoc. cbn [app].
  destruct TargetGroups as [|tg tgs]; [reflexivity|].
  cbn [index0]. run_ret. cbn in Hno.
  destruct (LoadBalancerArns tg); [reflexivity | discriminate].
Qed.

Lemma get_svc_alb_healthccheck_info_no_balancer_witness :
  get_svc_alb_healthccheck_info Scenario.target_group_alone "tg-arn"
    (Some "dev") initial =
    (Raise IndexError,
     State (stdout initial)
       (requests initial
          ++ [NewClient "elbv2" (Some "dev"); DescribeTargetGroups ["tg-arn"]])).
Proof.
  apply (get_svc_alb_healthccheck_info_no_balancer Scenario.target_group_alone
           "tg-arn" (Some "dev") [TargetGroup [] "HTTP" "/healthz"] initial);
    reflexivity.
Defined.

(** X12. When the first load balancer of the service carries no
    ["targetGroupArn"] (a load balancer of the classic kind),
    [get_svc_alb_tg_arn] raises [KeyError]: its handler catches
    [IndexError] only, so the handler's diagnostic is not printed and its
    [sys.exit(1)] is not reached; the exception goes to the caller
    uncaught. *)
Theorem get_svc_alb_tg_arn_missing_key aws cluster_n svc_n profile_name lbs
    services s :
  session_client aws "ecs" profile_name = None ->
  describe_services aws cluster_n [svc_n] =
    inr (ServiceDescription (ServiceLoadBalancer None :: lbs) :: services) ->
  get_svc_alb_tg_arn aws cluster_n svc_n profile_name s =
    (Raise (KeyError "targetGroupArn"),
     State (stdout s)
       (requests s
          ++ [NewClient "ecs" profile_name; DescribeServices cluster_n [svc_n]])).
Proof.
  intros Hc Hd. unfold get_svc_alb_tg_arn.
  run_with (run_get_aws_client _ _ _ _ Hc). run_log.
  rewrite Hd. cbn [answer]. run_ret. cbn. now rewrite <- app_assoc.
Qed.

Lemma get_svc_alb_tg_arn_missing_key_witness :
  get_svc_alb_tg_arn Scenario.classic_balancer "prod" "web" (Some "dev")
    initial =
    (Raise (KeyError "targetGroupArn"),
     State (stdout initial)
       (requests initial
          ++ [NewClient "ecs" (Some "dev"); DescribeServices "prod" ["web"]])).
Proof.
  apply (get_svc_alb_tg_arn_missing_key Scenario.classic_balancer "prod" "web"
           (Some "dev") [] [] initial);
    reflexivity.
Defined.

(** ** The start of [main] *)

Section MonotoneReport.

Variable aws : Provider.

Lemma monotone_list_svc_while fuel cluster_n vars :
  monotone (list_svc_while aws fuel cluster_n vars).
Proof.
  revert vars. induction fuel as [|fuel IH]; intros vars; cbn [list_svc_while].
  - monotone_auto.
  - destruct (PyStr.truthy (snd vars)); [|auto with monotone].
    apply monotone_bind; [|intros vars'; apply IH].
    monotone_auto.
Qed.

Lemma monotone_list_svc fuel cluster_n profile_name :
  monotone (list_svc aws fuel cluster_n profile_name).
Proof.
  unfold list_svc.
  monotone_auto; auto using monotone_get_aws_client, monotone_list_svc_while.
Qed.

Lemma monotone_get_svc_alb_tg_arn cluster_n svc_n profile_name :
  monotone (get_svc_alb_tg_arn aws cluster_n svc_n profile_name).
Proof.
  unfold get_svc_alb_tg_arn. monotone_auto; auto using monotone_get_aws_client.
Qed.

Lemma monotone_get_svc_alb_healthccheck_info tg_arn profile_name :
  monotone (get_svc_alb_healthccheck_info aws tg_arn profile_name).
Proof.
  unfold get_svc_alb_healthccheck_info.
  monotone_auto; auto using monotone_get_aws_client.
Qed.

(** What [main] does after the client of the identity service is
    logged. *)
Lemma monotone_main_after_sts_client fuel args profile_name :
  monotone
    (bind
       (bind
          (bind
             (match session_client aws "sts" profile_name with
              | Some e => raise e
              | None => ret tt
              end)
             (fun _ =>
                do* log GetCallerIdentity in
                let* account_id := answer (get_caller_identity aws) in
                print ("account_id: " +:+ account_id)))
          (fun _ =>
             do* print ("cluster name: " +:+ cluster args) in
             let* alb_info :=
               if PyStr.truthy (svc args) then
                 let svc_n := default "" (svc args) in
                 do* print ("service name: " +:+ svc_n) in
                 let* alb_info :=
                   if alb args then
                     let* svc_tg_arn :=
                       get_svc_alb_tg_arn aws (cluster args) svc_n profile_name in
                     let* info :=
                       get_svc_alb_healthccheck_info aws svc_tg_arn profile_name in
                     do* print (service_url info) in
                     ret (Some info)
                   else ret None in
                 let* tasks :=
                   get_svc_tasks_list aws (cluster args) svc_n profile_name in
                 do* display_svc_tsk aws tasks (cluster args) profile_name in
                 ret alb_info
               else
                 do* list_svc aws fuel (cluster args) profile_name in
                 ret None in
             ret (profile_name, alb_info)))
       (fun vars => main_dns aws fuel args (fst vars) (snd vars))).
Proof.
  cbv zeta.
  monotone_auto;
    auto using monotone_get_svc_alb_tg_arn,
      monotone_get_svc_alb_healthccheck_info, monotone_get_svc_tasks_list,
      monotone_display_svc_tsk, monotone_list_svc, monotone_main_dns.
Qed.

End MonotoneReport.

Lemma main_after_sts_client aws fuel args (environ : gmap string string)
    profile_name s0 :
  resolve_profile args environ initial = (Ret profile_name, s0) ->
  exists rest_of_main : M unit,
    monotone rest_of_main /\
    main aws fuel args environ initial =
      rest_of_main (State (stdout s0) [NewClient "sts" profile_name]).
Proof.
  intros Hp. eexists. split; [apply (monotone_main_after_sts_client aws fuel args profile_name)|].
  assert (Hreq : requests s0 = []).
  { pose proof (resolve_profile_requests args environ initial) as Hr.
    now rewrite Hp in Hr. }
  unfold main, main_report. rewrite !bind_assoc.
  rewrite (run_bind _ _ _ _ _ Hp). cbv beta.
  unfold get_aws_account_id, get_aws_client.
  rewrite !bind_assoc, run_bind_log, Hreq. cbn [app].
  unfold bind. reflexivity.
Qed.

(** X13. When [--profile] is absent or empty and the environment has
    [AWS_PROFILE], whatever its value, [main] first prints
    "aws profile: <value>" and goes on with that value as the profile:
    its first request creates the identity client under it.  The line and
    the request stay whatever the rest of the run does. *)
Theorem main_falls_back_to_environment_profile aws fuel args
    (environ : gmap string string) name :
  PyStr.truthy (profile args) = false ->
  environ !! "AWS_PROFILE" = Some name ->
  exists out reqs,
    stdout (snd (main aws fuel args environ initial)) =
      Line ("aws profile: " +:+ name) :: out /\
    requests (snd (main aws fuel args environ initial)) =
      NewClient "sts" (Some name) :: reqs.
Proof.
  intros Hflag Henv.
  destruct (main_after_sts_client aws fuel args environ (Some name)
              (State [Line ("aws profile: " +:+ name)] []))
    as (rest_of_main & Hmono & Hmain).
  { unfold resolve_profile. rewrite Hflag, Henv. reflexivity. }
  cbn [stdout] in Hmain. rewrite Hmain.
  destruct (Hmono (State [Line ("aws profile: " +:+ name)]
                     [NewClient "sts" (Some name)])) as (o & r & Ho & Hr).
  exists o, r. now rewrite Ho, Hr.
Qed.

Lemma main_falls_back_to_environment_profile_witness :
  exists out reqs,
    stdout (snd (main Scenario.web 3
                   {| profile := None; svc := Some "web"; dns := None;
                      cluster := "prod"; alb := false |}
                   {["AWS_PROFILE" := ""]} initial)) =
      Line ("aws profile: " +:+ "") :: out /\
    requests (snd (main Scenario.web 3
                     {| profile := None; svc := Some "web"; dns := None;
                        cluster := "prod"; alb := false |}
                     {["AWS_PROFILE" := ""]} initial)) =
      NewClient "sts" (Some "") :: reqs.
Proof.
  apply (main_falls_back_to_environment_profile Scenario.web 3
           {| profile := None; svc := Some "web"; dns := None;
              cluster := "prod"; alb := false |}
           {["AWS_PROFILE" := ""]} "").
  - reflexivity.
  - vm_compute. reflexivity.
Defined.

(** X14. When the caller's identity cannot be looked up, [main] ends in
    the provider's error right there: nothing is printed after the
    profile block, and the identity client and its one request are all
    that was asked of the provider. *)
Theorem main_identity_error_aborts aws fuel args (environ : gmap string string)
    profile_name s0 e :
  resolve_profile args environ initial = (Ret profile_name, s0) ->
  session_client aws "sts" profile_name = None ->
  get_caller_identity aws = inl e ->
  main aws fuel args environ initial =
    (Raise e,
     State (stdout s0) [NewClient "sts" profile_name; GetCallerIdentity]).
Proof.
  intros Hp Hc Hid.
  assert (Hreq : requests s0 = []).
  { pose proof (resolve_profile_requests args environ initial) as Hr.
    now rewrite Hp in Hr. }
  unfold main. apply run_bind_raise. unfold main_report.
  run_with Hp. apply run_bind_raise. unfold get_aws_account_id.
  run_with (run_get_aws_client _ _ _ _ Hc). run_log.
  rewrite Hid, Hreq. reflexivity.
Qed.

Lemma main_identity_error_aborts_witness :
  main Scenario.identity_denied 3 Scenario.web_args ∅ initial =
    (Raise (ProviderError "ExpiredToken"),
     State (stdout initial) [NewClient "sts" (Some "dev"); GetCallerIdentity]).
Proof.
  apply (main_identity_error_aborts Scenario.identity_denied 3
           Scenario.web_args ∅ (Some "dev") initial
           (ProviderError "ExpiredToken"));
    reflexivity.
Defined.

(** ** Identifiers and image references with one separator, or none *)

(** X15. For task identifiers with exactly one ["/"] (the provider's
    short form, ["...:task/<id>"]), [get_svc_tasks_list] returns, in the
    provider's order, the text after the last separator of each. *)
Theorem get_svc_tasks_list_one_separator aws cluster_n svc_n profile_name
    taskArns s :
  session_client aws "ecs" profile_name = None ->
  list_tasks aws cluster_n svc_n = inr taskArns ->
  Forall (one_separator "/") taskArns ->
  fst (get_svc_tasks_list aws cluster_n svc_n profile_name s) =
    Ret (map (PyStr.after_last "/") taskArns).
Proof.
  intros Hc Hl Hone.
  rewrite (run_get_svc_tasks_list _ _ _ _ _ _ Hc Hl). cbn [fst]. f_equal.
  clear Hl.
  induction Hone as [|arn arns (before & after & -> & Hb & Ha) _ IH];
    [reflexivity|].
  cbn [map]. rewrite IH. f_equal.
  now apply after_first_last_one_sep.
Qed.

Lemma get_svc_tasks_list_one_separator_witness :
  fst (get_svc_tasks_list Scenario.web "prod" "web" (Some "dev") initial) =
    Ret (map (PyStr.after_last "/")
           ["arn:aws:ecs:eu-west-1:123456789012:task/a1b2"]).
Proof.
  apply (get_svc_tasks_list_one_separator Scenario.web "prod" "web"
           (Some "dev") ["arn:aws:ecs:eu-west-1:123456789012:task/a1b2"]
           initial).
  - reflexivity.
  - reflexivity.
  - constructor; [|constructor].
    exists "arn:aws:ecs:eu-west-1:123456789012:task", "a1b2".
    repeat split.
Defined.

(** X16. An image reference without a colon (an untagged image) is
    returned whole: for such a last container definition
    [get_tsk_def_img_tag] gives the image reference itself as the
    "tag". *)
Theorem get_tsk_def_img_tag_untagged aws tsk profile_name containerDefinitions
    definition s :
  session_client aws "ecs" profile_name = None ->
  describe_task_definition aws tsk = inr containerDefinitions ->
  last containerDefinitions = Some definition ->
  free_of ":" (image definition) = true ->
  fst (get_tsk_def_img_tag aws tsk profile_name s) =
    Ret (Some (image definition)).
Proof.
  intros Hc Hd Hlast Hfree.
  rewrite (run_get_tsk_def_img_tag _ _ _ _ _ Hc Hd). cbn [fst].
  unfold image_suffix. now rewrite Hlast, after_first_free.
Qed.

Lemma get_tsk_def_img_tag_untagged_witness :
  fst (get_tsk_def_img_tag Scenario.untagged_image "web:7" (Some "dev")
         initial) =
    Ret (Some (image (ContainerDefinition "nginx"))).
Proof.
  apply (get_tsk_def_img_tag_untagged Scenario.untagged_image "web:7"
           (Some "dev") [ContainerDefinition "nginx"]
           (ContainerDefinition "nginx") initial);
    reflexivity.
Defined.

(** X17. For a last container definition whose image reference is
    ["<repository>:<tag>"] with no other colon, [get_tsk_def_img_tag]
    returns the tag, and the definitions before the last have no say. *)
Theorem get_tsk_def_img_tag_one_colon aws tsk profile_name earlier repository
    tag s :
  session_client aws "ecs" profile_name = None ->
  describe_task_definition aws tsk =
    inr (earlier ++ [ContainerDefinition (repository +:+ String ":" tag)]) ->
  free_of ":" repository = true ->
  free_of ":" tag = true ->
  fst (get_tsk_def_img_tag aws tsk profile_name s) = Ret (Some tag) /\
  PyStr.after_last ":" (repository +:+ String ":" tag) = tag.
Proof.
  intros Hc Hd Hrepo Htag.
  rewrite (run_get_tsk_def_img_tag _ _ _ _ _ Hc Hd). cbn [fst].
  unfold image_suffix. rewrite last_snoc. cbn [image].
  rewrite after_first_app by exact Hrepo.
  split; [reflexivity | now apply after_last_app].
Qed.

Lemma get_tsk_def_img_tag_one_colon_witness :
  fst (get_tsk_def_img_tag Scenario.web "web:7" (Some "dev") initial) =
    Ret (Some "v2") /\
  PyStr.after_last ":" ("repo" +:+ String ":" "v2") = "v2".
Proof.
  apply (get_tsk_def_img_tag_one_colon Scenario.web "web:7" (Some "dev")
           [ContainerDefinition "repo:v1"] "repo" "v2" initial);
    reflexivity.
Defined.

(** ** The services [main] leaves alone *)

Section Avoids.

Variable avoided : string.

Let ok (r : request) : bool := negb (String.eqb (request_service r) avoided).

Lemma ok_of_service r service :
  request_service r = service -> service <> avoided -> ok r = true.
Proof.
  intros <- Hne. unfold ok. apply negb_true_iff. now apply String.eqb_neq.
Qed.

Lemma avoids_unchanged {A} (m : M A) :
  (forall s, requests (snd (m s)) = requests s) -> avoids avoided m.
Proof. intros Hm s Hs. now rewrite Hm. Qed.

Lemma avoids_ret {A} (a : A) : avoids avoided (ret a).
Proof. now apply avoids_unchanged. Qed.

Lemma avoids_sys_exit {A} code : avoids avoided (@sys_exit A code).
Proof. now apply avoids_unchanged. Qed.

Lemma avoids_raise {A} e : avoids avoided (@raise A e).
Proof. now apply avoids_unchanged. Qed.

Lemma avoids_diverge {A} : avoids avoided (@diverge A).
Proof. now apply avoids_unchanged. Qed.

Lemma avoids_print text : avoids avoided (print text).
Proof. now apply avoids_unchanged. Qed.

Lemma avoids_print_table rows : avoids avoided (print_table rows).
Proof. now apply avoids_unchanged. Qed.

Lemma avoids_log r service :
  request_service r = service -> service <> avoided -> avoids avoided (log r).
Proof.
  intros Hr Hne s Hs. cbn. rewrite forallb_app, Hs. cbn.
  fold (ok r). now rewrite (ok_of_service r service Hr Hne).
Qed.

Lemma avoids_bind {A B} (m : M A) (k : A -> M B) :
  avoids avoided m -> (forall a, avoids avoided (k a)) ->
  avoids avoided (bind m k).
Proof.
  intros Hm Hk s Hs. unfold bind. specialize (Hm s Hs).
  destruct (m s) as [[a| | |] s']; cbn in Hm; try exact Hm.
  now apply Hk.
Qed.

Lemma avoids_try_except {A} (body : M A) caught handler :
  avoids avoided body -> (forall e, avoids avoided (handler e)) ->
  avoids avoided (try_except body caught handler).
Proof.
  intros Hb Hh s Hs. unfold try_except. specialize (Hb s Hs).
  destruct (body s) as [[a| |e|] s']; cbn in Hb; try exact Hb.
  destruct (caught e); [now apply Hh | exact Hb].
Qed.

Lemma avoids_answer {A} (r : exn + A) : avoids avoided (answer r).
Proof. destruct r; [apply avoids_raise | apply avoids_ret]. Qed.

Lemma avoids_index0 {A} (l : list A) : avoids avoided (index0 l).
Proof. destruct l; [apply avoids_raise | apply avoids_ret]. Qed.

Lemma avoids_index_at {A} (l : list A) i : avoids avoided (index_at l i).
Proof.
  unfold index_at. destruct (l !! i); [apply avoids_ret | apply avoids_raise].
Qed.

Lemma avoids_field {A} key (v : option A) : avoids avoided (field key v).
Proof. destruct v; [apply avoids_ret | apply avoids_raise]. Qed.

Lemma avoids_subscript alb_info : avoids avoided (subscript alb_info).
Proof. destruct alb_info; [apply avoids_ret | apply avoids_raise]. Qed.

Lemma avoids_for_each {A St} (l : list A) (body : St -> A -> M St) acc :
  (forall acc' x, avoids avoided (body acc' x)) ->
  avoids avoided (for_each l body acc).
Proof.
  intros Hb. revert acc.
  induction l as [|x l IH]; intros acc; cbn [for_each].
  - apply avoids_ret.
  - apply avoids_bind; [apply Hb | intros acc'; apply IH].
Qed.

Lemma avoids_for_pages {P St} req service index (pages : list P) err
    (body : St -> P -> M St) acc :
  (forall i, request_service (req i) = service) -> service <> avoided ->
  (forall acc' page, avoids avoided (body acc' page)) ->
  avoids avoided (for_pages req index pages err body acc).
Proof.
  intros Hreq Hne Hb. revert index acc.
  induction pages as [|page rest IH]; intros index acc; cbn [for_pages].
  - destruct err.
    + apply avoids_bind; [now apply (avoids_log _ service) | intros _].
      apply avoids_raise.
    + apply avoids_ret.
  - apply avoids_bind; [now apply (avoids_log _ service) | intros _].
    apply avoids_bind; [apply Hb | intros acc'; apply IH].
Qed.

(** One step of a proof that a service is left alone. *)
Ltac avoids_step :=
  match goal with
  | |- avoids _ (bind _ _) => apply avoids_bind; [|intros ?]
  | |- avoids _ (try_except _ _ _) => apply avoids_try_except; [|intros ?]
  | |- avoids _ (for_each _ _ _) => apply avoids_for_each; intros ? ?
  | |- avoids _ (for_pages _ _ _ _ _ _) =>
      eapply avoids_for_pages;
        [intros ?; cbn; reflexivity | eassumption | intros ? ?]
  | |- avoids _ (log _) =>
      eapply avoids_log; [cbn; reflexivity | eassumption]
  | |- avoids _ (ret _) => apply avoids_ret
  | |- avoids _ (raise _) => apply avoids_raise
  | |- avoids _ (sys_exit _) => apply avoids_sys_exit
  | |- avoids _ diverge => apply avoids_diverge
  | |- avoids _ (print _) => apply avoids_print
  | |- avoids _ (print_table _) => apply avoids_print_table
  | |- avoids _ (answer _) => apply avoids_answer
  | |- avoids _ (index0 _) => apply avoids_index0
  | |- avoids _ (index_at _ _) => apply avoids_index_at
  | |- avoids _ (field _ _) => apply avoids_field
  | |- avoids _ (subscript _) => apply avoids_subscript
  | |- avoids _ (if ?b then _ else _) => destruct b
  | |- avoids _ (match ?x with _ => _ end) => destruct x
  end.

Variable aws : Provider.

Lemma avoids_get_aws_client service profile_name :
  service <> avoided ->
  avoids avoided (get_aws_client aws service profile_name).
Proof. intros Hne. unfold get_aws_client. repeat avoids_step. Qed.

Section Identity.

Hypothesis not_sts : "sts" <> avoided.

Lemma avoids_get_aws_account_id profile_name :
  avoids avoided (get_aws_account_id aws profile_name).
Proof.
  unfold get_aws_account_id.
  apply avoids_bind; [now apply avoids_get_aws_client | intros _].
  repeat avoids_step.
Qed.

End Identity.

Section Cluster.

Hypothesis not_ecs : "ecs" <> avoided.

Lemma avoids_get_svc_tasks_list cluster_n svc_n profile_name :
  avoids avoided (get_svc_tasks_list aws cluster_n svc_n profile_name).
Proof.
  unfold get_svc_tasks_list.
  apply avoids_bind; [now apply avoids_get_aws_client | intros _].
  repeat avoids_step.
Qed.

Lemma avoids_get_tsk_def_img_tag tsk profile_name :
  avoids avoided (get_tsk_def_img_tag aws tsk profile_name).
Proof.
  unfold get_tsk_def_img_tag.
  apply avoids_bind; [now apply avoids_get_aws_client | intros _].
  repeat avoids_step.
Qed.

Lemma avoids_display_svc_tsk task_list cluster profile_name :
  avoids avoided (display_svc_tsk aws task_list cluster profile_name).
Proof.
  unfold display_svc_tsk.
  apply avoids_bind; [now apply avoids_get_aws_client | intros _].
  do 3 avoids_step.
  - apply avoids_for_each. intros vars task. unfold add_task_row.
    apply avoids_bind; [apply avoids_get_tsk_def_img_tag | intros img_tag].
    repeat avoids_step.
  - avoids_step.
Qed.

Lemma avoids_get_svc_alb_tg_arn cluster_n svc_n profile_name :
  avoids avoided (get_svc_alb_tg_arn aws cluster_n svc_n profile_name).
Proof.
  unfold get_svc_alb_tg_arn.
  apply avoids_bind; [now apply avoids_get_aws_client | intros _].
  repeat avoids_step.
Qed.

Lemma avoids_list_svc_while fuel cluster_n vars :
  avoids avoided (list_svc_while aws fuel cluster_n vars).
Proof.
  revert vars. induction fuel as [|fuel IH]; intros vars; cbn [list_svc_while].
  - repeat avoids_step.
  - destruct (PyStr.truthy (snd vars)); [|apply avoids_ret].
    cbv zeta. apply avoids_bind; [|intros vars'; apply IH].
    repeat avoids_step.
Qed.

Lemma avoids_list_svc fuel cluster_n profile_name :
  avoids avoided (list_svc aws fuel cluster_n profile_name).
Proof.
  unfold list_svc.
  apply avoids_bind; [now apply avoids_get_aws_client | intros _].
  apply avoids_try_except; [|intros error; repeat avoids_step].
  cbv zeta. avoids_step; [repeat avoids_step|].
  apply avoids_bind; [apply avoids_list_svc_while | intros vars].
  repeat avoids_step.
Qed.

End Cluster.

Section Balancer.

Hypothesis not_elbv2 : "elbv2" <> avoided.

Lemma avoids_get_svc_alb_healthccheck_info tg_arn profile_name :
  avoids avoided (get_svc_alb_healthccheck_info aws tg_arn profile_name).
Proof.
  unfold get_svc_alb_healthccheck_info.
  apply avoids_bind; [now apply avoids_get_aws_client | intros _].
  repeat avoids_step.
Qed.

End Balancer.

Section Zone.

Hypothesis not_route53 : "route53" <> avoided.

Lemma avoids_get_dns_records_100x zone_id next_token profile_name :
  avoids avoided (get_dns_records_100x aws zone_id next_token profile_name).
Proof.
  unfold get_dns_records_100x.
  apply avoids_bind; [now apply avoids_get_aws_client | intros _].
  cbv zeta. repeat avoids_step.
Qed.

Lemma avoids_dns_while fuel zone profile_name alb_info more :
  avoids avoided (dns_while aws fuel zone profile_name alb_info more).
Proof.
  revert more. induction fuel as [|fuel IH]; intros more; cbn [dns_while].
  - repeat avoids_step.
  - destruct (PyStr.truthy (page_nextToken more)); [|apply avoids_ret].
    apply avoids_bind; [apply avoids_subscript | intros info].
    destruct (dnsMap more !! info_DNSName info); [apply avoids_print|].
    apply avoids_bind; [apply avoids_get_dns_records_100x | intros more'].
    apply IH.
Qed.

Lemma avoids_main_dns fuel args profile_name alb_info :
  avoids avoided (main_dns aws fuel args profile_name alb_info).
Proof.
  unfold main_dns.
  destruct (PyStr.truthy (dns args) && PyStr.truthy (svc args));
    [|apply avoids_ret].
  cbv zeta.
  apply avoids_bind; [apply avoids_get_dns_records_100x | intros more].
  apply avoids_bind; [repeat avoids_step | intros _].
  apply avoids_dns_while.
Qed.

End Zone.

End Avoids.

Lemma dns_request_service r :
  dns_request r = String.eqb (request_service r) "route53".
Proof. destruct r; reflexivity. Qed.

Lemma elb_request_service r :
  elb_request r = String.eqb (request_service r) "elbv2".
Proof. destruct r; reflexivity. Qed.

Lemma forallb_negb_existsb {A} (f g : A -> bool) (l : list A) :
  (forall x, g x = f x) ->
  forallb (fun x => negb (f x)) l = true -> existsb g l = false.
Proof.
  intros Hfg. induction l as [|x l IH]; cbn; [reflexivity|].
  intros Hall. apply andb_prop in Hall as [Hx Hl].
  apply negb_true_iff in Hx. now rewrite Hfg, Hx, IH.
Qed.

(** Close the routine goals of a proof that [main] leaves a service
    alone. *)
Ltac avoids_main :=
  repeat first
    [ apply avoids_ret
    | apply avoids_sys_exit
    | apply avoids_print
    | apply avoids_get_aws_account_id; discriminate
    | apply avoids_get_svc_alb_tg_arn; discriminate
    | apply avoids_get_svc_alb_healthccheck_info; discriminate
    | apply avoids_get_svc_tasks_list; discriminate
    | apply avoids_display_svc_tsk; discriminate
    | apply avoids_list_svc; discriminate
    | apply avoids_main_dns; discriminate
    | apply avoids_bind; [|intros ?]
    | match goal with
      | |- avoids _ (if ?b then _ else _) => is_var b; destruct b
      | |- avoids _ (match ?x with _ => _ end) => destruct x
      end ].

(** X18. Unless both [--dns] and [--svc] are given, [main] makes no
    request to the DNS service, whatever the provider answers and however
    the run ends. *)
Theorem main_without_dns_and_svc_avoids_route53 aws fuel args
    (environ : gmap string string) :
  PyStr.truthy (dns args) && PyStr.truthy (svc args) = false ->
  existsb dns_request (requests (snd (main aws fuel args environ initial))) =
    false.
Proof.
  intros Hoff.
  apply (forallb_negb_existsb
           (fun r => String.eqb (request_service r) "route53") dns_request);
    [apply dns_request_service|].
  assert (Hmain : avoids "route53" (main aws fuel args environ)).
  { unfold main. apply avoids_bind.
    - unfold main_report, resolve_profile. cbv zeta.
      destruct (PyStr.truthy (profile args)), (environ !! "AWS_PROFILE"),
        (PyStr.truthy (svc args)), (alb args);
        avoids_main.
    - intros vars. unfold main_dns. rewrite Hoff. apply avoids_ret. }
  now apply (Hmain initial).
Qed.

Lemma main_without_dns_and_svc_avoids_route53_witness :
  existsb dns_request
    (requests (snd (main Scenario.web 3 Scenario.dns_only_args ∅ initial))) =
    false.
Proof.
  apply (main_without_dns_and_svc_avoids_route53 Scenario.web 3
           Scenario.dns_only_args ∅).
  reflexivity.
Defined.

(** X19. Unless both [--alb] and [--svc] are given, [main] makes no
    request to the load-balancer service, whatever the provider answers
    and however the run ends. *)
Theorem main_without_alb_and_svc_avoids_elbv2 aws fuel args
    (environ : gmap string string) :
  alb args && PyStr.truthy (svc args) = false ->
  existsb elb_request (requests (snd (main aws fuel args environ initial))) =
    false.
Proof.
  intros Hoff.
  apply (forallb_negb_existsb
           (fun r => String.eqb (request_service r) "elbv2") elb_request);
    [apply elb_request_service|].
  assert (Hmain : avoids "elbv2" (main aws fuel args environ)).
  { unfold main. apply avoids_bind.
    - unfold main_report, resolve_profile. cbv zeta.
      destruct (PyStr.truthy (profile args)), (environ !! "AWS_PROFILE"),
        (PyStr.truthy (svc args)), (alb args);
        try discriminate Hoff; avoids_main.
    - intros vars. apply avoids_main_dns. discriminate. }
  now apply (Hmain initial).
Qed.

Lemma main_without_alb_and_svc_avoids_elbv2_witness :
  existsb elb_request
    (requests (snd (main Scenario.web 3 Scenario.tasks_only_args ∅ initial))) =
    false.
Proof.
  apply (main_without_alb_and_svc_avoids_elbv2 Scenario.web 3
           Scenario.tasks_only_args ∅).
  reflexivity.
Defined.

(** ** More on the alias map and on the task report *)

Lemma add_record_keeps (dnsMap0 : gmap string string) record key :
  is_Some (dnsMap0 !! key) -> is_Some (add_record dnsMap0 record !! key).
Proof.
  intros Hkey. unfold add_record.
  destruct (String.eqb (Type_ record) "A"); [|exact Hkey].
  destruct (AliasTarget record) as [target|]; [|exact Hkey].
  rewrite lookup_insert. case_decide; [eauto | exact Hkey].
Qed.

Lemma fold_add_record_keeps records :
  forall (dnsMap0 : gmap string string) key,
    is_Some (dnsMap0 !! key) ->
    is_Some (fold_left add_record records dnsMap0 !! key).
Proof.
  induction records as [|record records IH]; intros dnsMap0 key Hkey;
    [exact Hkey|].
  cbn [fold_left]. apply IH. now apply add_record_keeps.
Qed.

Lemma fold_add_record_complete records :
  forall (dnsMap0 : gmap string string) record target,
    record ∈ records ->
    Type_ record = "A" ->
    AliasTarget record = Some target ->
    is_Some
      (fold_left add_record records dnsMap0
         !! PyStr.drop_last (alias_DNSName target)).
Proof.
  induction records as [|first records IH];
    intros dnsMap0 record target Hin Htype Htarget; [inversion Hin|].
  cbn [fold_left]. apply elem_of_cons in Hin as [-> | Hin].
  - apply fold_add_record_keeps. unfold add_record.
    rewrite Htype, Htarget. cbn. rewrite lookup_insert_eq. eauto.
  - now apply (IH _ record target).
Qed.

(** X20. Every ["A"] record with an alias target among the records
    fetched by one call of [get_dns_records_100x] leaves its alias
    target's DNS name, without its last character, as a key of the
    returned map (the value may be the name of a later record with the
    same target). *)
Theorem get_dns_records_100x_keeps_every_target aws zone_id next_token
    profile_name pages record target s :
  session_client aws "route53" profile_name = None ->
  list_record_sets_pages aws zone_id next_token = (pages, None) ->
  record ∈ concat (map ResourceRecordSets pages) ->
  Type_ record = "A" ->
  AliasTarget record = Some target ->
  exists more s',
    get_dns_records_100x aws zone_id next_token profile_name s =
      (Ret more, s') /\
    is_Some (dnsMap more !! PyStr.drop_last (alias_DNSName target)).
Proof.
  intros Hc Hpages Hin Htype Htarget. eexists. eexists. split.
  - apply (run_get_dns_records_100x _ _ _ _ _ _ Hc Hpages).
  - cbn [dnsMap]. now apply (fold_add_record_complete _ _ record target).
Qed.

Lemma get_dns_records_100x_keeps_every_target_witness :
  exists more s',
    get_dns_records_100x Scenario.shared_target "Z123" None (Some "dev")
      initial = (Ret more, s') /\
    is_Some
      (dnsMap more
         !! PyStr.drop_last (alias_DNSName (AliasTargetOf "lb-123.example.com."))).
Proof.
  apply (get_dns_records_100x_keeps_every_target Scenario.shared_target "Z123"
           None (Some "dev")
           [RecordSetsPage
              [ResourceRecordSet "app.example.com." "A"
                 (Some (AliasTargetOf "lb-123.example.com."));
               ResourceRecordSet "www.example.com." "A"
                 (Some (AliasTargetOf "lb-123.example.com."))]
              None]
           (ResourceRecordSet "app.example.com." "A"
              (Some (AliasTargetOf "lb-123.example.com.")))
           (AliasTargetOf "lb-123.example.com.") initial).
  - reflexivity.
  - reflexivity.
  - cbn. left.
  - reflexivity.
  - reflexivity.
Defined.

Lemma run_bind_print_table {B} rows (k : unit -> M B) s :
  bind (print_table rows) k s =
    k tt (State (stdout s ++ [Table rows]) (requests s)).
Proof. reflexivity. Qed.

(** X21. With [--svc] alone (no [--alb], no [--dns]), when the provider
    answers every request and describes at most as many tasks as it
    listed, [main] returns normally having printed, after the profile
    block, exactly the account line, the cluster line, the service line
    and one table of the tasks, whose rows pair the listed identifiers
    with the described tasks by position. *)
Theorem main_task_report aws fuel args (environ : gmap string string)
    profile_name s0 account svc_n taskArns tasks definitions :
  resolve_profile args environ initial = (Ret profile_name, s0) ->
  (forall service, session_client aws service profile_name = None) ->
  get_caller_identity aws = inr account ->
  svc args = Some svc_n ->
  PyStr.nonempty svc_n = true ->
  alb args = false ->
  PyStr.truthy (dns args) = false ->
  list_tasks aws (cluster args) svc_n = inr taskArns ->
  describe_tasks aws (cluster args) (map (after_first "/") taskArns) =
    inr tasks ->
  (forall task, task ∈ tasks ->
     describe_task_definition aws (taskDefinitionArn task) =
       inr (definitions (taskDefinitionArn task))) ->
  length tasks <= length taskArns ->
  let run := main aws fuel args environ initial in
  fst run = Ret tt /\
  stdout (snd run) =
    stdout s0
      ++ [Line ("account_id: " +:+ account);
          Line ("cluster name: " +:+ cluster args);
          Line ("service name: " +:+ svc_n);
          Table (task_rows (map (after_first "/") taskArns) tasks definitions)].
Proof.
  intros Hp Hc Hid Hsvc Hne Halb Hdns Hl Hd Hdef Hlen run.
  assert (Hmain : exists s_end,
    run = (Ret tt, s_end) /\
    stdout s_end =
      stdout s0
        ++ [Line ("account_id: " +:+ account);
            Line ("cluster name: " +:+ cluster args);
            Line ("service name: " +:+ svc_n);
            Table (task_rows (map (after_first "/") taskArns) tasks
                     definitions)]).
  { subst run. unfold main, main_report.
    run_with Hp.
    run_with (run_get_aws_account_id _ _ _ _ (Hc _) Hid).
    run_print.
    unfold PyStr.truthy at 1. rewrite Hsvc, Hne, Halb. cbn [default id].
    run_print. run_ret.
    run_with (run_get_svc_tasks_list _ _ _ _ _ _ (Hc _) Hl).
    unfold display_svc_tsk.
    run_with (run_get_aws_client _ _ _ _ (Hc _)). run_log.
    rewrite Hd. cbn [answer]. run_ret. rewrite !bind_assoc.
    match goal with
    | |- context [bind (for_each _ _ _) _ ?s1] =>
        destruct (run_add_task_rows_full aws (map (after_first "/") taskArns)
                    profile_name tasks definitions (Hc _) Hdef [] 0 s1)
          as (s' & Hrun & Hout); [now rewrite length_map|]
    end.
    run_with Hrun. cbn [fst app drop].
    rewrite run_bind_print_table, run_bind_ret, run_bind_ret.
    unfold main_dns. rewrite Hdns. cbn [andb fst snd ret].
    eexists. split; [reflexivity|]. cbn [stdout]. rewrite Hout. cbn [stdout].
    now rewrite <- !app_assoc. }
  destruct Hmain as (s_end & -> & Hout). split; [reflexivity | exact Hout].
Qed.

Lemma main_task_report_witness :
  let run := main Scenario.web 3 Scenario.tasks_only_args ∅ initial in
  fst run = Ret tt /\
  stdout (snd run) =
    stdout initial
      ++ [Line ("account_id: " +:+ "123456789012");
          Line ("cluster name: " +:+ cluster Scenario.tasks_only_args);
          Line ("service name: " +:+ "web");
          Table
            (task_rows
               (map (after_first "/")
                  ["arn:aws:ecs:eu-west-1:123456789012:task/a1b2"])
               [TaskDescription
                  "arn:aws:ecs:eu-west-1:123456789012:task-definition/web:7"
                  "RUNNING"]
               (fun _ => [ContainerDefinition "repo:v1";
                          ContainerDefinition "repo:v2"]))].
Proof.
  apply (main_task_report Scenario.web 3 Scenario.tasks_only_args ∅
           (Some "dev") initial "123456789012" "web"
           ["arn:aws:ecs:eu-west-1:123456789012:task/a1b2"]
           [TaskDescription
              "arn:aws:ecs:eu-west-1:123456789012:task-definition/web:7"
              "RUNNING"]
           (fun _ => [ContainerDefinition "repo:v1";
                      ContainerDefinition "repo:v2"])).
  - reflexivity.
  - intros service. reflexivity.
  - reflexivity.
  - reflexivity.
  - reflexivity.
  - reflexivity.
  - reflexivity.
  - reflexivity.
  - reflexivity.
  - intros task _. reflexivity.
  - cbn. lia.
Defined.
